(** * sensorsd: the threshold-watch engine of usr.sbin/sensorsd/sensorsd.c

    A shallow embedding of [check_sensors], [report], [print_sensor],
    [parse_config], [get_val] and of the reload branch of [main], followed
    by the properties of the hysteresis engine, the command templater, the
    unit parser and the configuration loader.

    Conventions.
    - [int64_t], [int] and [time_t] values are integers of [Z]; the places
      where the C arithmetic could leave its range are written out.
    - [double] is IEEE 754 binary64, computed with the Standard Library's
      [SpecFloat] operations at precision 53 and exponent bound 1024.
    - A [string] stands for a NUL-terminated C string: it holds no NUL.
    - [err]/[errx] end the process: functions that can reach them return a
      [proc] outcome. *)

From Stdlib Require Import ZArith List String Ascii Bool Lia DecimalString.
From Stdlib Require Import SpecFloat.
Import ListNotations.

Open Scope string_scope.
Open Scope Z_scope.

(* ================================================================== *)
(** * Declarations of <sys/sensors.h> used by the source               *)
(* ================================================================== *)

(** The sensor types the source names in its [switch] statements.  Every
    other enumerator of [enum sensor_type] takes the [default:] branches;
    [SENSOR_OTHER k] stands for the enumerator of value [k]. *)
Inductive sensor_type : Type :=
| SENSOR_TEMP
| SENSOR_FANRPM
| SENSOR_VOLTS_DC
| SENSOR_AMPS
| SENSOR_INDICATOR
| SENSOR_INTEGER
| SENSOR_PERCENT
| SENSOR_LUX
| SENSOR_DRIVE
| SENSOR_OTHER (k : Z).

Inductive sensor_status : Type :=
| SENSOR_S_UNSPEC
| SENSOR_S_OK
| SENSOR_S_WARN
| SENSOR_S_CRIT
| SENSOR_S_UNKNOWN.

Definition status_eqb (a b : sensor_status) : bool :=
  match a, b with
  | SENSOR_S_UNSPEC, SENSOR_S_UNSPEC
  | SENSOR_S_OK, SENSOR_S_OK
  | SENSOR_S_WARN, SENSOR_S_WARN
  | SENSOR_S_CRIT, SENSOR_S_CRIT
  | SENSOR_S_UNKNOWN, SENSOR_S_UNKNOWN => true
  | _, _ => false
  end.

(** The two fields of [struct sensor] that [check_sensors] reads. *)
Record sensor : Type := mk_sensor {
  sensor_value : Z;                 (* int64_t value *)
  sensor_stat  : sensor_status      (* enum sensor_status status *)
}.

Definition time_t := Z.

Definition LLONG_MAX : Z := 9223372036854775807.
Definition LLONG_MIN : Z := -9223372036854775808.

(* ================================================================== *)
(** * Process outcomes                                                 *)
(* ================================================================== *)

(** What a call can do to the process: return a value, end the process
    through [err]/[errx] with an exit status and a diagnostic, or leave
    the part of C and of libc that this development describes
    ([Unmodelled]: undefined conversions, inputs of [strtod] outside the
    decimal fragment below). *)
Inductive proc (A : Type) : Type :=
| Ret (a : A)
| Exit (code : Z) (diag : string)
| Unmodelled (why : string).

Arguments Ret {A} a.
Arguments Exit {A} code diag.
Arguments Unmodelled {A} why.

Definition bind {A B : Type} (m : proc A) (k : A -> proc B) : proc B :=
  match m with
  | Ret a => k a
  | Exit c d => Exit c d
  | Unmodelled w => Unmodelled w
  end.

Notation "x <- m ;; k" := (bind m (fun x => k))
  (at level 61, m at next level, right associativity).

(* ================================================================== *)
(** * The watch list                                                   *)
(* ================================================================== *)

(** [struct limits_t], without the list linkage: the watch list
    [limits] is a [list limits_t] in list order. *)
Record limits_t : Type := mk_limits {
  dxname         : string;          (* device unix name *)
  dev            : Z;               (* device number *)
  type           : sensor_type;     (* sensor type *)
  numt           : Z;               (* sensor number *)
  last_val       : Z;
  lower          : Z;               (* lower limit *)
  upper          : Z;               (* upper limit *)
  command        : option string;   (* failure command, NULL = None *)
  status_changed : time_t;
  status         : sensor_status;   (* last status *)
  status2        : sensor_status;
  count          : Z;               (* stat change counter *)
  watch          : bool
}.

Definition set_last_val (v : Z) (l : limits_t) : limits_t :=
  mk_limits (dxname l) (dev l) (type l) (numt l) v (lower l) (upper l)
            (command l) (status_changed l) (status l) (status2 l) (count l)
            (watch l).

Definition set_status2_count (s2 : sensor_status) (c : Z) (l : limits_t)
  : limits_t :=
  mk_limits (dxname l) (dev l) (type l) (numt l) (last_val l) (lower l)
            (upper l) (command l) (status_changed l) (status l) s2 c
            (watch l).

(** [limit->status2 = limit->status = s; limit->status_changed = now;]
    with the counter the source has at that point. *)
Definition confirm (s : sensor_status) (c : Z) (now : time_t) (l : limits_t)
  : limits_t :=
  mk_limits (dxname l) (dev l) (type l) (numt l) (last_val l) (lower l)
            (upper l) (command l) now s s c (watch l).

Definition set_watch (w : bool) (l : limits_t) : limits_t :=
  mk_limits (dxname l) (dev l) (type l) (numt l) (last_val l) (lower l)
            (upper l) (command l) (status_changed l) (status l) (status2 l)
            (count l) w.

Definition set_config (lo up : Z) (cmd : option string) (l : limits_t)
  : limits_t :=
  mk_limits (dxname l) (dev l) (type l) (numt l) (last_val l) lo up cmd
            (status_changed l) (status l) (status2 l) (count l) true.

(** What [calloc] and the enumeration loop of [main] leave in a new
    entry: every field zero but the identity.  [SENSOR_S_UNSPEC] is the
    enumerator of value 0. *)
Definition calloc_limit (name : string) (d : Z) (ty : sensor_type) (n : Z)
  : limits_t :=
  mk_limits name d ty n 0 0 0 None 0 SENSOR_S_UNSPEC SENSOR_S_UNSPEC 0 false.

(* ================================================================== *)
(** * check_sensors: the hysteresis engine                             *)
(* ================================================================== *)

(** Lines 215-226: the candidate status of a sample. *)
Definition newstatus_of (limit : limits_t) (s : sensor) : sensor_status :=
  match sensor_stat s with
  | SENSOR_S_UNKNOWN => SENSOR_S_WARN
  | SENSOR_S_UNSPEC =>
      if (sensor_value s >? upper limit) || (sensor_value s <? lower limit)
      then SENSOR_S_CRIT
      else SENSOR_S_OK
  | st => st
  end.

(** Lines 214-241: the body of the loop for one watched entry, given the
    reading [s] that [sysctl] returned and the value [now] of
    [time(NULL)]. *)
Definition check_limit (s : sensor) (now : time_t) (limit : limits_t)
  : limits_t :=
  let limit := set_last_val (sensor_value s) limit in
  let newstatus := newstatus_of limit s in
  if status_eqb (status limit) newstatus then limit
  else if status_eqb newstatus SENSOR_S_OK then
    confirm newstatus (count limit) now limit
  else if negb (status_eqb (status2 limit) newstatus) then
    set_status2_count newstatus 0 limit
  else
    let c := count limit + 1 in
    if c >=? 3 then confirm newstatus c now limit
    else set_status2_count (status2 limit) c limit.

(** The sampling capability: [sysctl] on the five-level name
    [hw.sensors.dev.type.numt]; [None] is the return value -1. *)
Definition sysctl_t := Z -> sensor_type -> Z -> option sensor.

(** [check_sensors]: one pass over the list.  A failing [sysctl] ends the
    process through [err(1, "sysctl")]. *)
Fixpoint check_sensors (sysctl : sysctl_t) (now : time_t)
  (limits : list limits_t) : proc (list limits_t) :=
  match limits with
  | [] => Ret []
  | limit :: rest =>
      if watch limit then
        match sysctl (dev limit) (type limit) (numt limit) with
        | None => Exit 1 "sysctl"
        | Some s =>
            rest' <- check_sensors sysctl now rest ;;
            Ret (check_limit s now limit :: rest')
        end
      else
        rest' <- check_sensors sysctl now rest ;;
        Ret (limit :: rest')
  end.

(** Sampling passes at the clock values [times], one after the other. *)
Fixpoint check_passes (sysctl : sysctl_t) (times : list time_t)
  (limits : list limits_t) : proc (list limits_t) :=
  match times with
  | [] => Ret limits
  | now :: later =>
      limits' <- check_sensors sysctl now limits ;;
      check_passes sysctl later limits'
  end.

(** The fields that identify a sensor, and the fields the engine keeps
    about it at run time. *)
Definition same_identity (a b : limits_t) : Prop :=
  dxname a = dxname b /\ dev a = dev b /\ type a = type b /\ numt a = numt b.

Definition same_state (a b : limits_t) : Prop :=
  last_val a = last_val b /\ status a = status b /\
  status2 a = status2 b /\ count a = count b /\
  status_changed a = status_changed b.

(** Feeding one entry a sequence of readings, each with the clock value
    of its pass. *)
Definition feed (limit : limits_t) (samples : list (sensor * time_t))
  : limits_t :=
  fold_left (fun l st => check_limit (fst st) (snd st) l) samples limit.

(** The number of equal non-OK candidates [c] after which [check_limit]
    confirms [c], counted from the state [l]: one sample to open the
    streak when the pending status differs, then as many as bring the
    counter to 3. *)
Definition confirm_after (l : limits_t) (c : sensor_status) : nat :=
  if status_eqb (status2 l) c then
    if count l >=? 2 then 1%nat else Z.to_nat (3 - count l)
  else 4%nat.

(** The reading used where a list of samples has no element. *)
Definition no_sample : sensor * time_t := (mk_sensor 0 SENSOR_S_UNSPEC, 0).

(** The counter of an entry stays in the range the engine gives it. *)
Definition count_inv (l : limits_t) : Prop :=
  0 <= count l <= 3 /\ (status l <> status2 l -> count l <= 2).

(* ================================================================== *)
(** * Numbers of C: int64_t, double, and their printf conversions      *)
(* ================================================================== *)

(** Two's-complement wrap-around of a 64-bit signed result. *)
Definition wrap64 (z : Z) : Z := (z + 2 ^ 63) mod 2 ^ 64 - 2 ^ 63.

(** [%d] and [%lld]: signed decimal. *)
Definition dec (z : Z) : string := NilEmpty.string_of_int (Z.to_int z).

(** [snprintf(dst, size, ...)] keeps at most [size - 1] characters. *)
Definition truncate (size : nat) (s : string) : string :=
  substring 0 (size - 1) s.

Definition strlen (s : string) : Z := Z.of_nat (String.length s).

Definition double := spec_float.

Definition d_add : double -> double -> double := SFadd 53 1024.
Definition d_sub : double -> double -> double := SFsub 53 1024.
Definition d_mul : double -> double -> double := SFmul 53 1024.
Definition d_div : double -> double -> double := SFdiv 53 1024.

(** Conversion of an integer to [double], to nearest-even. *)
Definition d_of_Z (z : Z) : double := binary_normalize 53 1024 z 0 false.

(** The decimal constant [m / 10^k] as the compiler or [strtod] reads it:
    the quotient of two exactly representable integers is rounded once,
    so this is the nearest [double] whenever [|m| < 2^53] and [k <= 22]. *)
Definition d_decimal (m : Z) (k : nat) : double :=
  d_div (d_of_Z m) (d_of_Z (10 ^ Z.of_nat k)).

(** Conversion of a [double] to an integer type discards the fraction;
    it is defined only if the result fits ([None] otherwise, and for
    infinities and NaN). *)
Definition d_trunc (x : double) : option Z :=
  match x with
  | S754_zero _ => Some 0
  | S754_finite s m e =>
      let a := if e >=? 0 then Z.pos m * 2 ^ e else Z.pos m / 2 ^ (- e) in
      Some (if s then - a else a)
  | _ => None
  end.

Definition int64_of_double (x : double) : proc Z :=
  match d_trunc x with
  | Some z =>
      if (LLONG_MIN <=? z) && (z <=? LLONG_MAX) then Ret z
      else Unmodelled "double to int64_t: out of range"
  | None => Unmodelled "double to int64_t: not finite"
  end.

(** [num / den] rounded to the nearest integer, ties to even
    ([0 <= num], [0 < den]). *)
Definition round_half_even (num den : Z) : Z :=
  let q := num / den in
  match (2 * (num mod den)) ?= den with
  | Lt => q
  | Gt => q + 1
  | Eq => if Z.even q then q else q + 1
  end.

Definition sign_s (s : bool) : string := if s then "-" else "".

(** [%.2f]: the exact value of the [double], correctly rounded to two
    decimals. *)
Definition fmt_f2 (x : double) : string :=
  match x with
  | S754_zero s => (sign_s s ++ "0.00")%string
  | S754_infinity s => (sign_s s ++ "inf")%string
  | S754_nan => "nan"
  | S754_finite s m e =>
      let q := if e >=? 0 then Z.pos m * 2 ^ e * 100
               else round_half_even (Z.pos m * 100) (2 ^ (- e)) in
      (sign_s s ++ dec (q / 100) ++ "." ++
       dec (q mod 100 / 10) ++ dec (q mod 10))%string
  end.

(* ================================================================== *)
(** * print_sensor: the value formatter                                *)
(* ================================================================== *)

Definition RFBUFSIZ : nat := 28.

Definition drvstat : list string :=
  [ "" (* NULL *); "empty"; "ready"; "powerup"; "online"; "idle"; "active";
    "rebuild"; "powerdown"; "fail"; "pfail" ].

(** [print_sensor]: the text left in the ring buffer slot it returns.
    Each caller in this file copies the text before the slot can be
    reused, so the ring is not part of the value. *)
Definition print_sensor (ty : sensor_type) (value : Z) : string :=
  truncate RFBUFSIZ
    match ty with
    | SENSOR_TEMP =>
        (fmt_f2 (d_div (d_of_Z (wrap64 (value - 273150000)))
                       (d_of_Z 1000000)) ++ " degC")%string
    | SENSOR_FANRPM => (dec value ++ " RPM")%string
    | SENSOR_VOLTS_DC =>
        (fmt_f2 (d_div (d_of_Z value) (d_of_Z 1000000)) ++ " V DC")%string
    | SENSOR_AMPS =>
        (fmt_f2 (d_div (d_of_Z value) (d_of_Z 1000000)) ++ " A")%string
    | SENSOR_INDICATOR => if value =? 0 then "Off" else "On"
    | SENSOR_INTEGER => (dec value ++ " raw")%string
    | SENSOR_PERCENT =>
        (fmt_f2 (d_div (d_of_Z value) (d_of_Z 1000)) ++ "%")%string
    | SENSOR_LUX =>
        (fmt_f2 (d_div (d_of_Z value) (d_of_Z 1000000)) ++ " lx")%string
    | SENSOR_DRIVE =>
        if (0 <? value) && (value <? Z.of_nat (List.length drvstat))
        then nth (Z.to_nat value) drvstat ""
        else (dec value ++ " ???")%string
    | SENSOR_OTHER _ => (dec value ++ " ???")%string
    end.

(* ================================================================== *)
(** * What the daemon emits                                            *)
(* ================================================================== *)

Inductive priority : Type := LOG_INFO | LOG_ALERT | LOG_CRIT.

(** The calls that leave the process: a [syslog] line, a call of
    [execute] on a terminated buffer, and a call of [execute] on a buffer
    whose [BUFSIZ] characters hold no terminator (the shell then reads
    past the end of [buf]). *)
Inductive event : Type :=
| Syslog (pri : priority) (msg : string)
| Execute (cmd : string)
| ExecuteUnterminated (buf : string).

(** How the expansion loop of [report] ends. *)
Inductive expansion : Type :=
| Expanded (buf : string)        (* left through [break]: terminated *)
| Overflow                       (* [r >= len - n]: syslog and return *)
| Unterminated (buf : string).   (* left through [n < len] failing *)

(* ================================================================== *)
(** * strtod on the decimal fragment                                   *)
(* ================================================================== *)

Definition isspace (c : ascii) : bool :=
  let n := nat_of_ascii c in
  (n =? 32)%nat || ((9 <=? n)%nat && (n <=? 13)%nat).

Definition digit_of (c : ascii) : option Z :=
  let n := Z.of_nat (nat_of_ascii c) in
  if (48 <=? n) && (n <=? 57) then Some (n - 48) else None.

Fixpoint skip_space (s : string) : string :=
  match s with
  | String c t => if isspace c then skip_space t else s
  | EmptyString => s
  end.

(** Reads a run of decimal digits onto [acc]; returns the number, how
    many digits were read and the rest. *)
Fixpoint read_digits (s : string) (acc : Z) (n : nat) : Z * nat * string :=
  match s with
  | String c t =>
      match digit_of c with
      | Some d => read_digits t (10 * acc + d) (S n)
      | None => (acc, n, s)
      end
  | EmptyString => (acc, n, s)
  end.

Definition starts_with_any (cs : list ascii) (s : string) : bool :=
  match s with
  | String c _ => existsb (Ascii.eqb c) cs
  | EmptyString => false
  end.

Inductive strtod_result : Type :=
| Conv (val : double) (endp : string)  (* converted; [endp] is the rest *)
| NoConv                               (* no conversion: [endp == buf] *)
| OutOfFragment.                       (* hex, exponent, inf, nan, long *)

(** [strtod] for blanks, an optional sign, digits and an optional point
    followed by digits, with at least one digit, a mantissa below [2^53] and at most 22 fraction digits, where
    the result is the single rounding [d_decimal].  Inputs that start
    like a hexadecimal constant, an infinity or a NaN, or that continue
    with an exponent, are left out. *)
Definition strtod (buf : string) : strtod_result :=
  let s := skip_space buf in
  let '(neg, s1) :=
    match s with
    | String "-" t => (true, t)
    | String "+" t => (false, t)
    | _ => (false, s)
    end in
  let '(ip, ni, s2) := read_digits s1 0 0 in
  let '(m, nf, s3) :=
    match s2 with
    | String "." t => read_digits t ip 0
    | _ => (ip, 0%nat, s2)
    end in
  if (ni + nf =? 0)%nat then
    if starts_with_any ["i"; "I"; "n"; "N"]%char s1 then OutOfFragment
    else NoConv
  else if starts_with_any ["x"; "X"]%char s2 || starts_with_any ["e"; "E"]%char s3
  then OutOfFragment
  else if (2 ^ 53 <=? m) || (22 <? nf)%nat then OutOfFragment
  else
    let v := d_decimal m nf in
    Conv (if neg then SFopp v else v) s3.

(* ================================================================== *)
(** * get_val: the unit parser                                         *)
(* ================================================================== *)

(** [get_val(buf, upper, type)]; [buf == NULL] is [None].  The stray
    [printf("C")]/[printf("F")] to standard output are left out. *)
Definition get_val (buf : option string) (upper : bool) (ty : sensor_type)
  : proc Z :=
  match buf with
  | None => Ret (if upper then LLONG_MAX else LLONG_MIN)
  | Some buf =>
      match strtod buf with
      | OutOfFragment => Unmodelled "strtod"
      | NoConv => Exit 1 ("incorrect value: " ++ buf)
      | Conv val p =>
          match ty with
          | SENSOR_TEMP =>
              match p with
              | String "C" _ =>
                  int64_of_double
                    (d_mul (d_mul (d_add val (d_decimal 27316 2))
                                  (d_of_Z 1000)) (d_of_Z 1000))
              | String "F" _ =>
                  int64_of_double
                    (d_mul (d_mul
                       (d_add (d_mul (d_div (d_sub val (d_of_Z 32))
                                            (d_of_Z 9)) (d_of_Z 5))
                              (d_decimal 27316 2))
                       (d_of_Z 1000)) (d_of_Z 1000))
              | _ => Exit 1 ("unknown unit " ++ p ++ " for temp sensor")
              end
          | SENSOR_FANRPM => int64_of_double val
          | SENSOR_VOLTS_DC =>
              match p with
              | String "V" _ =>
                  int64_of_double (d_mul (d_mul val (d_of_Z 1000))
                                         (d_of_Z 1000))
              | _ => Exit 1 ("unknown unit " ++ p ++ " for voltage sensor")
              end
          | SENSOR_PERCENT => int64_of_double (d_mul val (d_of_Z 1000))
          | SENSOR_INDICATOR | SENSOR_INTEGER | SENSOR_DRIVE =>
              int64_of_double val
          | SENSOR_LUX =>
              int64_of_double (d_mul (d_mul val (d_of_Z 1000)) (d_of_Z 1000))
          | _ => Exit 1 "unsupported sensor type"
          end
      end
  end.

(** The record [cgetent] finds for a node, with the three capabilities
    [cgetstr] is asked for; [None] is a negative return. *)
Record cap_record : Type := mk_cap {
  cap_low     : option string;
  cap_high    : option string;
  cap_command : option string
}.

(** The configuration file as [cgetent] sees it: [None] is a nonzero
    return (no such record, or the file cannot be read). *)
Definition config_t := string -> option cap_record.

(* ================================================================== *)
(** * report, parse_config and main                                    *)
(* ================================================================== *)

Section Daemon.

(** Two declarations of system headers that the source uses and does
    not define: the table of type names [sensor_type_s] of
    <sys/sensors.h> and the size [BUFSIZ] of <stdio.h>. *)
Variable sensor_type_s : sensor_type -> string.
Variable BUFSIZ : Z.

(** The characters the templater substitutes a field for. *)
Definition recognized (c : ascii) : bool :=
  existsb (Ascii.eqb c) ["x"; "t"; "n"; "2"; "3"; "4"]%char.

(** The [switch (cmd[i])] of the templater: the text [snprintf] is asked
    to write for the character after a [%]. *)
Definition placeholder (limit : limits_t) (c : ascii) : string :=
  if (c =? "x")%char then dxname limit
  else if (c =? "t")%char then sensor_type_s (type limit)
  else if (c =? "n")%char then dec (numt limit)
  else if (c =? "2")%char then print_sensor (type limit) (last_val limit)
  else if (c =? "3")%char then print_sensor (type limit) (lower limit)
  else if (c =? "4")%char then print_sensor (type limit) (upper limit)
  else String "%" (String c "").

(** Lines 283-338.  [cmd] is the rest of the template from index [i],
    [buf] the [n] characters written so far ([n = strlen buf]); the
    guard [n < len] is tested first in every iteration, as the [for]
    does, and the template ends at its end or at a NUL. *)
Fixpoint expand (limit : limits_t) (cmd : string) (buf : string)
  {struct cmd} : expansion :=
  if BUFSIZ <=? strlen buf then Unterminated buf
  else
    match cmd with
    | EmptyString => Expanded buf
    | String c cmd1 =>
        if (c =? zero)%char then Expanded buf
        else if negb (c =? "%")%char then
          expand limit cmd1 (buf ++ String c "")
        else
          match cmd1 with
          | EmptyString => Expanded buf
          | String d cmd2 =>
              if (d =? zero)%char then Expanded buf
              else
                let r := strlen (placeholder limit d) in
                if r >=? BUFSIZ - strlen buf then Overflow
                else expand limit cmd2 (buf ++ placeholder limit d)
          end
    end.

Definition alert_line (limit : limits_t) : string :=
  ("hw.sensors." ++ dxname limit ++ "." ++ sensor_type_s (type limit) ++
   dec (numt limit) ++ ": " ++
   (if status_eqb (status limit) SENSOR_S_OK then "within" else "exceed") ++
   " limits, value: " ++ print_sensor (type limit) (last_val limit))%string.

(** The body of the loop of [report] for one entry: what it emits, and
    whether it leaves [report] through [return] ([true]) instead of
    going on to the next entry. *)
Definition report_limit (last_report : time_t) (limit : limits_t)
  : list event * bool :=
  if status_changed limit <=? last_report then ([], false)
  else
    let line := Syslog LOG_ALERT (alert_line limit) in
    match command limit with
    | None => ([line], false)
    | Some cmd =>
        match expand limit cmd "" with
        | Overflow =>
            ([line; Syslog LOG_CRIT "could not parse command"], true)
        | Expanded "" | Unterminated "" => ([line], false)
        | Expanded buf => ([line; Execute buf], false)
        | Unterminated buf => ([line; ExecuteUnterminated buf], false)
        end
    end.

Fixpoint report (last_report : time_t) (limits : list limits_t)
  : list event :=
  match limits with
  | [] => []
  | limit :: rest =>
      let (evs, returned) := report_limit last_report limit in
      if returned then evs else evs ++ report last_report rest
  end.

(** The record name [parse_config] builds in [node[24]]. *)
Definition node_name (p : limits_t) : string :=
  truncate 24 ("hw.sensors." ++ dxname p ++ "." ++
               sensor_type_s (type p) ++ dec (numt p))%string.

(** [parse_config]: the number of watches and the list as the loop
    leaves it.  [get_val] can end the process in the middle. *)
Fixpoint parse_config (cf : config_t) (limits : list limits_t)
  : proc (Z * list limits_t) :=
  match limits with
  | [] => Ret (0, [])
  | p :: rest =>
      match cf (node_name p) with
      | None =>
          r <- parse_config cf rest ;;
          Ret (fst r, set_watch false p :: snd r)
      | Some rec =>
          lo <- get_val (cap_low rec) false (type p) ;;
          up <- get_val (cap_high rec) true (type p) ;;
          let cmd := match cap_command rec with
                     | Some c => Some c
                     | None => command p
                     end in
          r <- parse_config cf rest ;;
          Ret (fst r + 1, set_config lo up cmd p :: snd r)
      end
  end.

(** Lines 147-151 of [main]: the initial load. *)
Definition main_load (cf : config_t) (limits : list limits_t)
  : proc (Z * list limits_t) :=
  r <- parse_config cf limits ;;
  if fst r =? -1 then Exit 1 "error in config file"
  else if fst r =? 0 then Exit 1 "no watches defined"
  else Ret r.

(** Lines 165-174 of [main]: the reload at the top of the loop, with
    the line it logs. *)
Definition main_reload (cf : config_t) (limits : list limits_t)
  : proc (list event * list limits_t) :=
  r <- parse_config cf limits ;;
  if fst r =? -1 then
    Ret ([Syslog LOG_CRIT "error in config file"], snd r)
  else
    Ret ([Syslog LOG_INFO ("configuration reloaded, " ++ dec (fst r) ++
                           " watches")], snd r).

End Daemon.

(* ================================================================== *)
(** * Concrete entries, readings and configurations for the examples   *)
(* ================================================================== *)

(** A table of type names for the examples. *)
Definition type_names (ty : sensor_type) : string :=
  match ty with
  | SENSOR_TEMP => "temp"
  | SENSOR_FANRPM => "fan"
  | SENSOR_VOLTS_DC => "volt"
  | SENSOR_AMPS => "current"
  | SENSOR_INDICATOR => "indicator"
  | SENSOR_INTEGER => "raw"
  | SENSOR_PERCENT => "percent"
  | SENSOR_LUX => "illuminance"
  | SENSOR_DRIVE => "drive"
  | SENSOR_OTHER _ => "undefined"
  end.

(** A watched entry with confirmed = pending = OK, as a recovery leaves
    it, and readings that the device itself classifies. *)
Definition fan_ok : limits_t :=
  mk_limits "lm0" 0 SENSOR_FANRPM 1 3000 1000 9000 None 0
            SENSOR_S_OK SENSOR_S_OK 0 true.

Definition crit_at (now : time_t) : sensor * time_t :=
  (mk_sensor 200 SENSOR_S_CRIT, now).

Definition temp_40_60 : limits_t :=
  mk_limits "cpu0" 0 SENSOR_TEMP 0 0 313150000 333150000 None 0
            SENSOR_S_OK SENSOR_S_OK 0 true.

Definition temp_crit : limits_t :=
  mk_limits "cpu0" 0 SENSOR_TEMP 0 353150000 313150000 333150000 None 60
            SENSOR_S_CRIT SENSOR_S_CRIT 3 true.

Fixpoint replicate (n : nat) (s : string) : string :=
  match n with
  | O => ""
  | S k => (s ++ replicate k s)%string
  end.

(** Two watched entries that both turned CRIT at time 80.  The template
    of the first asks for the current value 103 times, 1030 characters
    in all; the second has a short command. *)
Definition temp_long_template : limits_t :=
  mk_limits "cpu0" 0 SENSOR_TEMP 0 353150000 LLONG_MIN 343150000
            (Some (replicate 103 "%2")) 80 SENSOR_S_CRIT SENSOR_S_CRIT 3 true.

Definition fan_short_template : limits_t :=
  mk_limits "lm0" 1 SENSOR_FANRPM 0 200 1000 LLONG_MAX
            (Some "echo %x %t%n %2") 80 SENSOR_S_CRIT SENSOR_S_CRIT 3 true.

(** An entry whose template is 1024 literal characters. *)
Definition fan_literal_template : limits_t :=
  mk_limits "lm0" 1 SENSOR_FANRPM 0 200 1000 LLONG_MAX
            (Some (replicate 1024 "a")) 80 SENSOR_S_CRIT SENSOR_S_CRIT 3 true.

(** The entry the enumeration makes for the first temperature sensor of
    [cpu0], a configuration that watches it with an upper bound and a
    command, one that has no record for it, and one whose lower bound has
    a unit that [get_val] rejects. *)
Definition cpu_temp0 : limits_t := calloc_limit "cpu0" 0 SENSOR_TEMP 0.

Definition cfg_watch : config_t :=
  fun node =>
    if (node =? "hw.sensors.cpu0.temp0")%string
    then Some (mk_cap None (Some "60C") (Some "echo %x %2"))
    else None.

Definition cfg_none : config_t := fun _ => None.

Definition cfg_bad_unit : config_t :=
  fun node =>
    if (node =? "hw.sensors.cpu0.temp0")%string
    then Some (mk_cap (Some "25K") (Some "60C") None)
    else None.

Definition cfg_bad_number : config_t :=
  fun node =>
    if (node =? "hw.sensors.cpu0.temp0")%string
    then Some (mk_cap None (Some "hot") None)
    else None.

(** A device that reports 80 degC and leaves the status unspecified. *)
Definition sysctl_hot : sysctl_t :=
  fun _ _ _ => Some (mk_sensor 353150000 SENSOR_S_UNSPEC).

(** The watch list after the initial load of [cfg_watch] and four
    sampling passes over [sysctl_hot], as one computation. *)
Definition cpu_after_four_passes : proc (list limits_t) :=
  r <- main_load type_names cfg_watch [cpu_temp0] ;;
  check_passes sysctl_hot [20; 40; 60; 80] (snd r).

(** An entry of a type [get_val] does not convert, and a configuration
    that names it without bounds. *)
Definition amps0 : limits_t := calloc_limit "lm0" 0 SENSOR_AMPS 0.

Definition cfg_amps : config_t :=
  fun node =>
    if (node =? "hw.sensors.lm0.current0")%string
    then Some (mk_cap None None (Some "logger amps"))
    else None.

(* ================================================================== *)
(** * Further notions used by the properties of the engine             *)
(* ================================================================== *)

(** The fields [parse_config] owns: a sampling pass leaves them alone. *)
Definition same_config (a b : limits_t) : Prop :=
  lower a = lower b /\ upper a = upper b /\ command a = command b /\
  watch a = watch b.

(** Two entries agree on everything the hysteresis rule reads and
    writes: the bounds and the four status fields. *)
Definition same_hysteresis (a b : limits_t) : Prop :=
  lower a = lower b /\ upper a = upper b /\
  status a = status b /\ status2 a = status2 b /\ count a = count b /\
  status_changed a = status_changed b.

(** How many samples of a run have a candidate other than OK, for the
    bounds of [l]. *)
Definition alarming (l : limits_t) (ss : list (sensor * time_t)) : nat :=
  List.length
    (filter (fun st => negb (status_eqb (newstatus_of l (fst st)) SENSOR_S_OK))
            ss).

(** While OK is confirmed: how far the counter has come towards a
    confirmation (0 when nothing is pending). *)
Definition streak_progress (l : limits_t) : Z :=
  if status_eqb (status2 l) SENSOR_S_OK then 0 else Z.max 0 (count l + 1).

(* ================================================================== *)
(** * Further notions used by the properties of the reporter           *)
(* ================================================================== *)

(** A template character that the loop of [report] copies as it is. *)
Definition literal_char (c : ascii) : bool :=
  negb (c =? "%")%char && negb (c =? zero)%char.

Fixpoint literal (cmd : string) : bool :=
  match cmd with
  | EmptyString => true
  | String c rest => literal_char c && literal rest
  end.

(** The gate of [report]: the entry changed after the last report. *)
Definition changed_since (last_report : time_t) (l : limits_t) : bool :=
  last_report <? status_changed l.

(** The alert lines among what a pass emitted. *)
Definition alert_lines (evs : list event) : list string :=
  flat_map (fun e => match e with
                     | Syslog LOG_ALERT msg => [msg]
                     | _ => []
                     end) evs.

(* ================================================================== *)
(** * Ranges of threshold strings checked by evaluation                *)
(* ================================================================== *)

(** The integers [lo], [lo + 1], ..., [lo + len - 1]. *)
Definition zrange (lo : Z) (len : nat) : list Z :=
  map (fun k => lo + Z.of_nat k) (seq 0 len).

(** A number of hundredths written with two decimals, as in "12.05". *)
Definition two_decimals (c : Z) : string :=
  (dec (c / 100) ++ "." ++ dec (c mod 100 / 10) ++ dec (c mod 10))%string.

(** [get_val] on [n] whole degrees Celsius gives [n] degrees above
    273.16 K in micro-kelvin. *)
Definition celsius_parse_ok (n : Z) : bool :=
  match get_val (Some (dec n ++ "C")%string) false SENSOR_TEMP,
        get_val (Some (dec n ++ "C")%string) true SENSOR_TEMP with
  | Ret lo, Ret up =>
      (lo =? n * 1000000 + 273160000) && (up =? n * 1000000 + 273160000)
  | _, _ => false
  end.

(** [print_sensor] shows that value a hundredth above [n]. *)
Definition celsius_print_ok (n : Z) : bool :=
  (print_sensor SENSOR_TEMP (n * 1000000 + 273160000) =?
   dec n ++ ".01 degC")%string.

(** [get_val] on [c] hundredths of a volt gives [c * 10000] micro-volts
    or one less. *)
Definition volts_parse_ok (c : Z) : bool :=
  match get_val (Some (two_decimals c ++ "V")%string) true SENSOR_VOLTS_DC with
  | Ret v => (c * 10000 - 1 <=? v) && (v <=? c * 10000)
  | _ => false
  end.

(** A configuration that gives the first fan of [lm0] a lower bound and
    no command. *)
Definition cfg_fan_bound : config_t :=
  fun node =>
    if (node =? "hw.sensors.lm0.fan0")%string
    then Some (mk_cap (Some "2000") None None)
    else None.

(* ================================================================== *)
(** * main: the enumeration of the sensors                             *)
(* ================================================================== *)

(** The two fields of [struct sensordev] that [main] reads. *)
Record sensordev : Type := mk_sensordev {
  xname   : string;                  (* unix device name *)
  maxnumt : sensor_type -> Z         (* max sensor number per type *)
}.

(** [sysctl] on the three-level name [hw.sensors.dev], and on the
    five-level name as the enumeration uses it: [None] is the return
    value -1, [Some b] a reading with [b] telling whether
    [SENSOR_FINVALID] is set in its flags.  The [warn] that goes to
    standard error when [errno] is not [ENOENT] is left out. *)
Definition devctl_t := Z -> option sensordev.
Definition probe_t := Z -> sensor_type -> Z -> option bool.

Section Enumeration.

(** Two more items of <sys/sensors.h>: the bound of the device loop and
    the enumerators of [enum sensor_type] below [SENSOR_MAX_TYPES], in
    their order. *)
Variable MAXSENSORDEVICES : Z.
Variable sensor_types : list sensor_type.

Variable devctl : devctl_t.
Variable probe : probe_t.

(** Lines 116-135: the loop over the sensor numbers of one type.  The
    name is copied by [strlcpy] into [dxname[16]]; [calloc] is taken to
    succeed. *)
Definition enumerate_numt (d : Z) (sd : sensordev) (ty : sensor_type)
  : list limits_t :=
  flat_map (fun n =>
              match probe d ty n with
              | Some false => [calloc_limit (truncate 16 (xname sd)) d ty n]
              | _ => []
              end)
           (zrange 0 (Z.to_nat (maxnumt sd ty))).

(** Lines 108-136: one round of the loop over the devices. *)
Definition enumerate_dev (d : Z) : list limits_t :=
  match devctl d with
  | None => []
  | Some sd => flat_map (enumerate_numt d sd) sensor_types
  end.

(** Lines 106-137: the list [limits] in the order of insertion. *)
Definition enumerate : list limits_t :=
  flat_map enumerate_dev (zrange 0 (Z.to_nat MAXSENSORDEVICES)).

(** Lines 106-140, with the test of [sensor_cnt]. *)
Definition main_enumerate : proc (list limits_t) :=
  let limits := enumerate in
  if Z.of_nat (List.length limits) =? 0 then Exit 1 "no sensors found"
  else Ret limits.

End Enumeration.

(* ================================================================== *)
(** * main: one round of the control loop                              *)
(* ================================================================== *)

Definition CHECK_PERIOD : Z := 20.
Definition REPORT_PERIOD : Z := 60.

(** The three time variables of [main]. *)
Record schedule : Type := mk_schedule {
  next_check  : time_t;
  next_report : time_t;
  last_report : time_t
}.

(** What [time(NULL)] returns at the places one round of the loop asks
    for it, in the order of the calls. *)
Record clock : Type := mk_clock {
  at_check_test  : time_t;   (* next_check <= time(NULL) *)
  at_sampling    : time_t;   (* inside check_sensors *)
  after_check    : time_t;   (* next_check = time(NULL) + CHECK_PERIOD *)
  at_report_test : time_t;   (* next_report <= time(NULL) *)
  after_report   : time_t;   (* next_report = time(NULL) + REPORT_PERIOD *)
  at_sleep       : time_t    (* sleeptime = ... - time(NULL) *)
}.

(** Lines 179-183: the report step. *)
Definition report_step (sensor_type_s : sensor_type -> string) (BUFSIZ : Z)
  (clk : clock) (limits : list limits_t) (s : schedule)
  : list event * schedule :=
  if next_report s <=? at_report_test clk then
    (report sensor_type_s BUFSIZ (last_report s) limits,
     mk_schedule (next_check s) (after_report clk + REPORT_PERIOD)
                 (next_report s))
  else ([], s).

(** Lines 184-187: the time to sleep. *)
Definition sleeptime (clk : clock) (s : schedule) : Z :=
  if next_report s <? next_check s then next_report s - at_sleep clk
  else next_check s - at_sleep clk.

(** Lines 165-189: one round of the loop, from the value of the flag
    [reload] to the argument of [sleep]; the round returns the lines and
    commands it emitted, the list, the schedule and the time to sleep
    (no sleep when it is not positive). *)
Definition main_round (sensor_type_s : sensor_type -> string) (BUFSIZ : Z)
  (cf : config_t) (sysctl : sysctl_t) (clk : clock) (reload : bool)
  (limits : list limits_t) (s : schedule)
  : proc (list event * list limits_t * schedule * Z) :=
  r <- (if reload then main_reload sensor_type_s cf limits
        else Ret ([], limits)) ;;
  c <- (if next_check s <=? at_check_test clk then
          limits' <- check_sensors sysctl (at_sampling clk) (snd r) ;;
          Ret (limits', mk_schedule (after_check clk + CHECK_PERIOD)
                                    (next_report s) (last_report s))
        else Ret (snd r, s)) ;;
  let rs := report_step sensor_type_s BUFSIZ clk (fst c) (snd c) in
  Ret ((fst r ++ fst rs)%list, fst c, snd rs, sleeptime clk (snd rs)).

(** The clock does not go back within a round. *)
Definition clock_monotone (clk : clock) : Prop :=
  at_check_test clk <= at_sampling clk /\
  at_sampling clk <= after_check clk /\
  after_check clk <= at_report_test clk /\
  at_report_test clk <= after_report clk /\
  after_report clk <= at_sleep clk.

(** At time [now] no check is scheduled further ahead than one check
    period, no report further than one report period, and the last
    report is not after the next. *)
Definition schedule_inv (now : time_t) (s : schedule) : Prop :=
  next_check s <= now + CHECK_PERIOD /\
  next_report s <= now + REPORT_PERIOD /\
  last_report s <= next_report s.

(** A machine for the examples: one device [cpu0] with two temperature
    sensors, the second flagged invalid, and one fan that does not
    answer. *)
Definition example_types : list sensor_type :=
  [SENSOR_TEMP; SENSOR_FANRPM; SENSOR_VOLTS_DC].

Definition example_devctl : devctl_t :=
  fun d =>
    if d =? 0 then
      Some (mk_sensordev "cpu0"
              (fun ty => match ty with
                         | SENSOR_TEMP => 2
                         | SENSOR_FANRPM => 1
                         | _ => 0
                         end))
    else None.

Definition example_probe : probe_t :=
  fun d ty n =>
    match ty with
    | SENSOR_TEMP => Some (negb (n =? 0))
    | _ => None
    end.

(** A round of the loop in which the check and the report are both due
    at 100 and the process wakes up one second late. *)
Definition late_clock : clock := mk_clock 101 101 101 101 101 101.

Definition due_at_100 : schedule := mk_schedule 100 100 40.

(* ================================================================== *)
(** * lib/libm/arch/i387/s_floor.S                                     *)
(* ================================================================== *)

Module I387.

(** The part of the machine [floor] touches: the stack pointer, the
    register [%dx], the control word and the register stack of the
    floating-point unit, and the memory of the stack frame, read and
    written as 16-bit words and as 64-bit [double]s (the two words and
    the argument of [floor] do not overlap).  A [double] is loaded into
    a register and rounded to an integer there without loss, so the
    registers are modelled as [double]s; the status word is left out. *)
Record machine : Type := mk_machine {
  esp   : Z;
  dx    : Z;
  cw    : Z;
  st    : list double;
  mem16 : Z -> Z;
  mem64 : Z -> double
}.

Definition wrap32 (z : Z) : Z := z mod 2 ^ 32.

(** The address [off(%esp)]. *)
Definition at_esp (off : Z) (m : machine) : Z := wrap32 (esp m + off).

(** The rounding control, bits 10 and 11 of the control word. *)
Inductive rounding : Type := RC_nearest | RC_down | RC_up | RC_zero.

Definition rc_of_cw (w : Z) : rounding :=
  match Z.land (Z.shiftr w 10) 3 with
  | 0 => RC_nearest
  | 1 => RC_down
  | 2 => RC_up
  | _ => RC_zero
  end.

(** [frndint] under a rounding control: a finite value with a fraction
    is replaced by a neighbouring integer, with the sign of the value
    also when that integer is zero; integers, zeros, infinities and NaN
    stay. *)
Definition round_to_integer (rc : rounding) (x : double) : double :=
  match x with
  | S754_finite s m e =>
      if 0 <=? e then x
      else
        let k := 2 ^ (- e) in
        let q := Z.pos m / k in
        let inexact := negb (Z.pos m mod k =? 0) in
        let mag :=
          match rc with
          | RC_zero => q
          | RC_down => if s && inexact then q + 1 else q
          | RC_up => if negb s && inexact then q + 1 else q
          | RC_nearest => round_half_even (Z.pos m) k
          end in
        binary_normalize 53 1024 (if s then - mag else mag) 0 s
  | _ => x
  end.

Definition subl_esp (n : Z) (m : machine) : machine :=
  mk_machine (wrap32 (esp m - n)) (dx m) (cw m) (st m) (mem16 m) (mem64 m).

Definition addl_esp (n : Z) (m : machine) : machine :=
  mk_machine (wrap32 (esp m + n)) (dx m) (cw m) (st m) (mem16 m) (mem64 m).

Definition store16 (a v : Z) (f : Z -> Z) : Z -> Z :=
  fun a' => if a' =? a then v else f a'.

(** [fstcw off(%esp)] *)
Definition fstcw (off : Z) (m : machine) : machine :=
  mk_machine (esp m) (dx m) (cw m) (st m)
             (store16 (at_esp off m) (cw m) (mem16 m)) (mem64 m).

(** [fldcw off(%esp)] *)
Definition fldcw (off : Z) (m : machine) : machine :=
  mk_machine (esp m) (dx m) (mem16 m (at_esp off m)) (st m) (mem16 m)
             (mem64 m).

(** [movw off(%esp),%dx] *)
Definition movw_to_dx (off : Z) (m : machine) : machine :=
  mk_machine (esp m) (mem16 m (at_esp off m)) (cw m) (st m) (mem16 m)
             (mem64 m).

(** [movw %dx,off(%esp)] *)
Definition movw_from_dx (off : Z) (m : machine) : machine :=
  mk_machine (esp m) (dx m) (cw m) (st m)
             (store16 (at_esp off m) (dx m) (mem16 m)) (mem64 m).

(** [orw $imm,%dx] and [andw $imm,%dx] *)
Definition orw_dx (imm : Z) (m : machine) : machine :=
  mk_machine (esp m) (Z.lor (dx m) imm) (cw m) (st m) (mem16 m) (mem64 m).

Definition andw_dx (imm : Z) (m : machine) : machine :=
  mk_machine (esp m) (Z.land (dx m) imm) (cw m) (st m) (mem16 m) (mem64 m).

(** [fldl off(%esp)] *)
Definition fldl (off : Z) (m : machine) : machine :=
  mk_machine (esp m) (dx m) (cw m) (mem64 m (at_esp off m) :: st m)
             (mem16 m) (mem64 m).

Definition frndint (m : machine) : machine :=
  match st m with
  | x :: rest =>
      mk_machine (esp m) (dx m) (cw m)
                 (round_to_integer (rc_of_cw (cw m)) x :: rest)
                 (mem16 m) (mem64 m)
  | [] => m
  end.

(** [ret] pops the return address. *)
Definition ret (m : machine) : machine := addl_esp 4 m.

(** [ENTRY(floor)] to [ret], instruction by instruction. *)
Definition floor (m : machine) : machine :=
  let m := subl_esp 8 m in
  let m := fstcw 4 m in            (* store fpu control word *)
  let m := movw_to_dx 4 m in
  let m := orw_dx 0x0400 m in      (* round towards -oo *)
  let m := andw_dx 0xf7ff m in
  let m := movw_from_dx 0 m in
  let m := fldcw 0 m in            (* load modified control word *)
  let m := fldl 12 m in            (* round *)
  let m := frndint m in
  let m := fldcw 4 m in            (* restore original control word *)
  let m := addl_esp 8 m in
  ret m.






End I387.

(* ================================================================== *)
(** * Sanity checks of the embedding on concrete inputs                *)
(* ================================================================== *)

Example print_sensor_temp : print_sensor SENSOR_TEMP 298150000 = "25.00 degC".
Proof. vm_compute. reflexivity. Qed.
Example print_sensor_volt : print_sensor SENSOR_VOLTS_DC (-12345678) = "-12.35 V DC".
Proof. vm_compute. reflexivity. Qed.
Example print_sensor_pct : print_sensor SENSOR_PERCENT 99995 = "100.00%".
Proof. vm_compute. reflexivity. Qed.
Example print_sensor_pct2 : print_sensor SENSOR_PERCENT 125 = "0.12%".
Proof. vm_compute. reflexivity. Qed.
Example print_sensor_drive : print_sensor SENSOR_DRIVE 4 = "online".
Proof. vm_compute. reflexivity. Qed.
Example print_sensor_drive0 : print_sensor SENSOR_DRIVE 0 = "0 ???".
Proof. vm_compute. reflexivity. Qed.
Example print_sensor_max : print_sensor SENSOR_FANRPM LLONG_MAX = "9223372036854775807 RPM".
Proof. vm_compute. reflexivity. Qed.

(* ================================================================== *)
(** * The hysteresis engine                                            *)
(* ================================================================== *)

Lemma status_eqb_eq (a b : sensor_status) : status_eqb a b = true <-> a = b.
Proof. destruct a, b; simpl; split; congruence. Qed.

Lemma status_eqb_neq (a b : sensor_status) : status_eqb a b = false <-> a <> b.
Proof. destruct a, b; simpl; split; congruence. Qed.

Lemma status_eqb_refl (a : sensor_status) : status_eqb a a = true.
Proof. now destruct a. Qed.

(** The candidate is one of OK, WARN and CRIT. *)
Lemma newstatus_of_range (l : limits_t) (s : sensor) :
  newstatus_of l s = SENSOR_S_OK \/ newstatus_of l s = SENSOR_S_WARN \/
  newstatus_of l s = SENSOR_S_CRIT.
Proof.
  unfold newstatus_of.
  destruct (sensor_stat s); auto.
  destruct (_ || _); auto.
Qed.

(** A pass changes neither the bounds nor the flag, so the candidate of a
    later reading is computed against the same configuration. *)
Lemma check_limit_config (s : sensor) (now : time_t) (l : limits_t) :
  lower (check_limit s now l) = lower l /\
  upper (check_limit s now l) = upper l /\
  command (check_limit s now l) = command l /\
  watch (check_limit s now l) = watch l.
Proof.
  unfold check_limit; cbn.
  repeat match goal with |- context [if ?b then _ else _] => destruct b end;
    cbn; auto.
Qed.

Lemma newstatus_of_check_limit (s s' : sensor) (now : time_t) (l : limits_t) :
  newstatus_of (check_limit s now l) s' = newstatus_of l s'.
Proof.
  unfold newstatus_of.
  destruct (check_limit_config s now l) as (-> & -> & _).
  reflexivity.
Qed.

(** The four branches of lines 228-241, one lemma each. *)
Lemma check_limit_same (s : sensor) (now : time_t) (l : limits_t) :
  newstatus_of l s = status l ->
  check_limit s now l = set_last_val (sensor_value s) l.
Proof.
  intros H. unfold check_limit.
  change (newstatus_of (set_last_val (sensor_value s) l) s)
    with (newstatus_of l s).
  cbn [status set_last_val]. rewrite H, status_eqb_refl. reflexivity.
Qed.

Lemma check_limit_recover (s : sensor) (now : time_t) (l : limits_t) :
  status l <> SENSOR_S_OK ->
  newstatus_of l s = SENSOR_S_OK ->
  check_limit s now l =
  confirm SENSOR_S_OK (count l) now (set_last_val (sensor_value s) l).
Proof.
  intros Hne H. unfold check_limit.
  change (newstatus_of (set_last_val (sensor_value s) l) s)
    with (newstatus_of l s).
  cbn [status count set_last_val]. rewrite H.
  apply status_eqb_neq in Hne. rewrite Hne. reflexivity.
Qed.

Lemma check_limit_open (s : sensor) (now : time_t) (l : limits_t) :
  status l <> newstatus_of l s ->
  newstatus_of l s <> SENSOR_S_OK ->
  status2 l <> newstatus_of l s ->
  check_limit s now l =
  set_status2_count (newstatus_of l s) 0 (set_last_val (sensor_value s) l).
Proof.
  intros H1 H2 H3. unfold check_limit.
  change (newstatus_of (set_last_val (sensor_value s) l) s)
    with (newstatus_of l s).
  cbn [status status2 count set_last_val].
  apply status_eqb_neq in H1, H2, H3. rewrite H1, H2, H3. reflexivity.
Qed.

Lemma check_limit_count (s : sensor) (now : time_t) (l : limits_t) :
  status l <> newstatus_of l s ->
  newstatus_of l s <> SENSOR_S_OK ->
  status2 l = newstatus_of l s ->
  check_limit s now l =
  if count l + 1 >=? 3
  then confirm (newstatus_of l s) (count l + 1) now
               (set_last_val (sensor_value s) l)
  else set_status2_count (status2 l) (count l + 1)
               (set_last_val (sensor_value s) l).
Proof.
  intros H1 H2 H3. unfold check_limit.
  change (newstatus_of (set_last_val (sensor_value s) l) s)
    with (newstatus_of l s).
  cbn [status status2 count set_last_val].
  apply status_eqb_neq in H1, H2. apply status_eqb_eq in H3.
  rewrite H1, H2, H3. reflexivity.
Qed.

(** The counter never leaves 0..3 and is at most 2 while a status is
    pending: [++limit->count] cannot overflow the [int]. *)
Lemma check_limit_count_inv (s : sensor) (now : time_t) (l : limits_t) :
  count_inv l -> count_inv (check_limit s now l).
Proof.
  unfold count_inv. intros [Hr Hp].
  destruct (status_eqb (status l) (newstatus_of l s)) eqn:E1.
  - apply status_eqb_eq in E1. rewrite check_limit_same by auto. cbn. auto.
  - apply status_eqb_neq in E1.
    destruct (status_eqb (newstatus_of l s) SENSOR_S_OK) eqn:E2.
    + apply status_eqb_eq in E2.
      rewrite check_limit_recover by congruence. cbn. split; [lia|congruence].
    + apply status_eqb_neq in E2.
      destruct (status_eqb (status2 l) (newstatus_of l s)) eqn:E3.
      * apply status_eqb_eq in E3. rewrite check_limit_count by auto.
        assert (count l <= 2) by (apply Hp; congruence).
        destruct (count l + 1 >=? 3) eqn:E4; cbn; split; try lia; try congruence.
      * apply status_eqb_neq in E3. rewrite check_limit_open by auto.
        cbn. split; lia.
Qed.

Lemma calloc_limit_count_inv name d ty n : count_inv (calloc_limit name d ty n).
Proof. unfold count_inv; cbn. split; [lia|congruence]. Qed.

Lemma feed_cons (l : limits_t) (st : sensor * time_t) (ss : list (sensor * time_t)) :
  feed l (st :: ss) = feed (check_limit (fst st) (snd st) l) ss.
Proof. reflexivity. Qed.

Lemma all_candidates_step (l : limits_t) (c : sensor_status) (s : sensor)
  (now : time_t) (ss : list (sensor * time_t)) :
  Forall (fun st => newstatus_of l (fst st) = c) ss ->
  Forall (fun st => newstatus_of (check_limit s now l) (fst st) = c) ss.
Proof.
  intros H. eapply Forall_impl; [|exact H].
  intros st Hst. cbn in *. now rewrite newstatus_of_check_limit.
Qed.

(** Once the confirmed status is the candidate, further equal candidates
    leave the three status fields alone. *)
Lemma feed_settled (ss : list (sensor * time_t)) :
  forall (l : limits_t) (c : sensor_status),
    status l = c ->
    Forall (fun st => newstatus_of l (fst st) = c) ss ->
    status (feed l ss) = c /\
    status2 (feed l ss) = status2 l /\
    status_changed (feed l ss) = status_changed l.
Proof.
  induction ss as [|st ss IH]; intros l c Hs Hall.
  - cbn. auto.
  - rewrite feed_cons.
    pose proof (Forall_inv Hall) as Hst. cbn in Hst.
    apply Forall_inv_tail in Hall.
    assert (E : check_limit (fst st) (snd st) l =
                set_last_val (sensor_value (fst st)) l)
      by (apply check_limit_same; congruence).
    destruct (IH (check_limit (fst st) (snd st) l) c) as (A & B & C).
    + rewrite E. exact Hs.
    + now apply all_candidates_step.
    + rewrite A, B, C, E. cbn. auto.
Qed.

Lemma confirm_after_pos (l : limits_t) (c : sensor_status) :
  (1 <= confirm_after l c)%nat.
Proof.
  unfold confirm_after.
  destruct (status_eqb _ _); [|lia].
  destruct (count l >=? 2) eqn:E; lia.
Qed.

(** The general form of the escalation rule: with the confirmed status
    different from a non-OK candidate [c], a run of samples of candidate
    [c] confirms [c] at sample number [confirm_after l c], stamped with
    the clock of that sample, and at no other sample. *)
Lemma feed_confirms_at (ss : list (sensor * time_t)) :
  forall (l : limits_t) (c : sensor_status),
    c <> SENSOR_S_OK ->
    status l <> c ->
    Forall (fun st => newstatus_of l (fst st) = c) ss ->
    ((List.length ss < confirm_after l c)%nat ->
       status (feed l ss) = status l /\
       status_changed (feed l ss) = status_changed l) /\
    ((confirm_after l c <= List.length ss)%nat ->
       status (feed l ss) = c /\ status2 (feed l ss) = c /\
       status_changed (feed l ss) =
       snd (nth (confirm_after l c - 1) ss no_sample)).
Proof.
  induction ss as [|st ss IH]; intros l c Hok Hne Hall.
  - pose proof (confirm_after_pos l c). cbn [List.length feed fold_left].
    split; [auto | lia].
  - rewrite feed_cons.
    pose proof (Forall_inv Hall) as Hst. cbn in Hst.
    apply Forall_inv_tail in Hall.
    pose proof (all_candidates_step l c (fst st) (snd st) ss Hall) as Hall'.
    set (l1 := check_limit (fst st) (snd st) l) in *.
    destruct (status_eqb (status2 l) c) eqn:E2.
    + (* the pending status is the candidate: the counter goes up *)
      apply status_eqb_eq in E2.
      assert (E : l1 = if count l + 1 >=? 3
                       then confirm c (count l + 1) (snd st)
                              (set_last_val (sensor_value (fst st)) l)
                       else set_status2_count (status2 l) (count l + 1)
                              (set_last_val (sensor_value (fst st)) l)).
      { unfold l1. rewrite check_limit_count by congruence.
        now rewrite Hst. }
      destruct (count l + 1 >=? 3) eqn:E3.
      * assert (K : confirm_after l c = 1%nat).
        { unfold confirm_after. apply status_eqb_eq in E2. rewrite E2.
          destruct (count l >=? 2) eqn:E4; lia. }
        rewrite K. cbn [List.length nth Nat.sub].
        destruct (feed_settled ss l1 c) as (A & B & C);
          [rewrite E; reflexivity | exact Hall' |].
        split; [lia|]. intros _. rewrite A, B, C, E. cbn. auto.
      * assert (K : confirm_after l c = S (confirm_after l1 c)).
        { unfold confirm_after. rewrite E. cbn [status2 count set_status2_count].
          apply status_eqb_eq in E2. rewrite E2.
          destruct (count l >=? 2) eqn:E4; [lia|].
          destruct (count l + 1 >=? 2) eqn:E5; lia. }
        pose proof (confirm_after_pos l1 c) as P.
        destruct (IH l1 c Hok) as [I1 I2];
          [rewrite E; cbn; exact Hne | exact Hall' |].
        rewrite K. cbn [List.length].
        assert (S1 : status l1 = status l) by (rewrite E; reflexivity).
        assert (S2 : status_changed l1 = status_changed l)
          by (rewrite E; reflexivity).
        split; intros H.
        -- rewrite <- S1, <- S2. apply I1. lia.
        -- replace (S (confirm_after l1 c) - 1)%nat
             with (S (confirm_after l1 c - 1)) by lia.
           cbn [nth]. apply I2. lia.
    + (* a new streak: pending status set, counter 0 *)
      apply status_eqb_neq in E2.
      assert (E : l1 = set_status2_count c 0
                         (set_last_val (sensor_value (fst st)) l)).
      { unfold l1. rewrite check_limit_open by congruence.
        now rewrite Hst. }
      assert (K : confirm_after l c = 4%nat).
      { unfold confirm_after. apply status_eqb_neq in E2. now rewrite E2. }
      assert (K1 : confirm_after l1 c = 3%nat).
      { unfold confirm_after. rewrite E. cbn [status2 count set_status2_count].
        now rewrite status_eqb_refl. }
      destruct (IH l1 c Hok) as [I1 I2];
        [rewrite E; cbn; exact Hne | exact Hall' |].
      rewrite K1 in I1, I2. rewrite K. cbn [List.length].
      assert (S1 : status l1 = status l) by (rewrite E; reflexivity).
      assert (S2 : status_changed l1 = status_changed l)
        by (rewrite E; reflexivity).
      split; intros H.
      * rewrite <- S1, <- S2. apply I1. lia.
      * cbn [nth Nat.sub] in *. apply I2. lia.
Qed.

(** C1 (as amended).  Starting from a confirmed status different from a
    non-OK candidate [c], a run of samples of candidate [c] confirms [c]
    on exactly the 4th sample when the pending status differs from [c] as
    well (the 1st sample only opens the streak with the counter at 0, and
    the 2nd to 4th bring it to 3): before it the confirmed status and the
    change time are untouched, from it on confirmed = pending = [c] and
    the change time is the clock of the 4th sample.  It is the 3rd sample
    only when the pending status already is [c] with the counter at 0. *)
Theorem escalation_confirms_after_three_increments :
  forall (l : limits_t) (c : sensor_status) (ss : list (sensor * time_t)),
    c <> SENSOR_S_OK ->
    status l <> c ->
    Forall (fun st => newstatus_of l (fst st) = c) ss ->
    (status2 l <> c ->
       ((List.length ss < 4)%nat ->
          status (feed l ss) = status l /\
          status_changed (feed l ss) = status_changed l) /\
       ((4 <= List.length ss)%nat ->
          status (feed l ss) = c /\ status2 (feed l ss) = c /\
          status_changed (feed l ss) = snd (nth 3 ss no_sample))) /\
    (status2 l = c -> count l = 0 ->
       ((List.length ss < 3)%nat ->
          status (feed l ss) = status l /\
          status_changed (feed l ss) = status_changed l) /\
       ((3 <= List.length ss)%nat ->
          status (feed l ss) = c /\ status2 (feed l ss) = c /\
          status_changed (feed l ss) = snd (nth 2 ss no_sample))).
Proof.
  intros l c ss Hok Hne Hall.
  pose proof (feed_confirms_at ss l c Hok Hne Hall) as H.
  split.
  - intros H2. apply status_eqb_neq in H2.
    unfold confirm_after in H. rewrite H2 in H. exact H.
  - intros H2 H0. apply status_eqb_eq in H2.
    unfold confirm_after in H. rewrite H2, H0 in H. exact H.
Qed.

Lemma escalation_confirms_after_three_increments_witness :
  status (feed fan_ok [crit_at 20; crit_at 40; crit_at 60; crit_at 80])
    = SENSOR_S_CRIT /\
  status2 (feed fan_ok [crit_at 20; crit_at 40; crit_at 60; crit_at 80])
    = SENSOR_S_CRIT /\
  status_changed (feed fan_ok [crit_at 20; crit_at 40; crit_at 60; crit_at 80])
    = 80.
Proof.
  refine (proj2 (proj1 (escalation_confirms_after_three_increments
            fan_ok SENSOR_S_CRIT
            [crit_at 20; crit_at 40; crit_at 60; crit_at 80] _ _ _) _) _).
  - discriminate.
  - discriminate.
  - repeat constructor.
  - discriminate.
  - simpl. apply le_n.
Defined.

(** C1 as stated fails: after three consecutive CRIT samples the entry
    [fan_ok] is still confirmed OK and its change time is untouched; the
    4th sample confirms. *)
Lemma escalation_on_third_sample_counterexample :
  status fan_ok <> SENSOR_S_CRIT /\
  Forall (fun st => newstatus_of fan_ok (fst st) = SENSOR_S_CRIT)
         [crit_at 20; crit_at 40; crit_at 60] /\
  status (feed fan_ok [crit_at 20; crit_at 40; crit_at 60]) = SENSOR_S_OK /\
  status_changed (feed fan_ok [crit_at 20; crit_at 40; crit_at 60]) = 0 /\
  status (feed fan_ok [crit_at 20; crit_at 40; crit_at 60; crit_at 80])
    = SENSOR_S_CRIT.
Proof.
  split; [discriminate|]. split; [repeat constructor|].
  repeat split.
Qed.

(** A different candidate in between restarts the streak: two CRIT, one
    WARN and two CRIT samples confirm nothing. *)
Example streak_restarts_on_mismatch :
  status (feed fan_ok [crit_at 20; crit_at 40;
                       (mk_sensor 200 SENSOR_S_WARN, 60);
                       crit_at 80; crit_at 100]) = SENSOR_S_OK.
Proof. reflexivity. Qed.

(** A sample of the confirmed status in between does not: it leaves the
    pending status and the counter as they are. *)
Example streak_survives_confirmed_sample :
  feed fan_ok [crit_at 20; crit_at 40; crit_at 60;
               (mk_sensor 3000 SENSOR_S_OK, 80); crit_at 100] =
  mk_limits "lm0" 0 SENSOR_FANRPM 1 200 1000 9000 None 100
            SENSOR_S_CRIT SENSOR_S_CRIT 3 true.
Proof. reflexivity. Qed.

(** C2 (as amended).  For a reading whose device status is unspecified
    the candidate is CRIT exactly when the value is above the upper or
    below the lower bound, and OK exactly when it lies between them, the
    bounds included; so a value equal to a bound is OK whenever the
    bounds are not contradictory ([lower <= upper]). *)
Theorem bounds_are_strict :
  forall (l : limits_t) (s : sensor),
    sensor_stat s = SENSOR_S_UNSPEC ->
    (newstatus_of l s = SENSOR_S_CRIT <->
       sensor_value s > upper l \/ sensor_value s < lower l) /\
    (newstatus_of l s = SENSOR_S_OK <->
       lower l <= sensor_value s <= upper l) /\
    (lower l <= upper l ->
       sensor_value s = upper l \/ sensor_value s = lower l ->
       newstatus_of l s = SENSOR_S_OK).
Proof.
  intros l s Hs. unfold newstatus_of. rewrite Hs.
  destruct (sensor_value s >? upper l) eqn:E1;
    destruct (sensor_value s <? lower l) eqn:E2; cbn;
    (split; [|split]); try split; intros; try discriminate;
    try reflexivity; try lia.
Qed.

Lemma bounds_are_strict_witness :
  newstatus_of temp_40_60 (mk_sensor 333150000 SENSOR_S_UNSPEC) = SENSOR_S_OK.
Proof.
  refine (proj2 (proj2 (bounds_are_strict temp_40_60
            (mk_sensor 333150000 SENSOR_S_UNSPEC) _)) _ _).
  - reflexivity.
  - simpl. discriminate.
  - left. reflexivity.
Defined.

(** C2 as stated fails for the contradictory configuration the engine
    accepts: with lower = 10 above upper = 5, the value 5 equals the
    upper bound and is below the lower one, hence CRIT. *)
Lemma value_on_bound_counterexample :
  let l := mk_limits "lm0" 0 SENSOR_INTEGER 0 0 10 5 None 0
             SENSOR_S_OK SENSOR_S_OK 0 true in
  let s := mk_sensor 5 SENSOR_S_UNSPEC in
  watch l = true /\ sensor_stat s = SENSOR_S_UNSPEC /\
  sensor_value s = upper l /\
  newstatus_of l s = SENSOR_S_CRIT /\ newstatus_of l s <> SENSOR_S_OK.
Proof. cbn. repeat split; discriminate. Qed.

(** C3.  Recovery is never debounced: whatever non-OK status is
    confirmed, whatever is pending and whatever the counter holds, one
    sample of candidate OK sets confirmed = pending = OK and stamps the
    change time with the clock of that sample. *)
Theorem recovery_is_immediate :
  forall (l : limits_t) (s : sensor) (now : time_t),
    status l <> SENSOR_S_OK ->
    newstatus_of l s = SENSOR_S_OK ->
    status (check_limit s now l) = SENSOR_S_OK /\
    status2 (check_limit s now l) = SENSOR_S_OK /\
    status_changed (check_limit s now l) = now.
Proof.
  intros l s now Hne Hc.
  rewrite check_limit_recover by assumption.
  cbn. auto.
Qed.

Lemma recovery_is_immediate_witness :
  status (check_limit (mk_sensor 320000000 SENSOR_S_UNSPEC) 80 temp_crit)
    = SENSOR_S_OK /\
  status2 (check_limit (mk_sensor 320000000 SENSOR_S_UNSPEC) 80 temp_crit)
    = SENSOR_S_OK /\
  status_changed (check_limit (mk_sensor 320000000 SENSOR_S_UNSPEC) 80 temp_crit)
    = 80.
Proof.
  apply (recovery_is_immediate temp_crit
           (mk_sensor 320000000 SENSOR_S_UNSPEC) 80).
  - discriminate.
  - reflexivity.
Defined.

(* ================================================================== *)
(** * The command templater and the reporter                           *)
(* ================================================================== *)

Section ReportFacts.

Variable sensor_type_s : sensor_type -> string.
Variable BUFSIZ : Z.

Lemma placeholder_unrecognized (l : limits_t) (c : ascii) :
  recognized c = false ->
  placeholder sensor_type_s l c = String "%" (String c "").
Proof.
  unfold recognized, placeholder. cbn [existsb].
  intros H. repeat (apply orb_false_elim in H; destruct H as [-> H]).
  reflexivity.
Qed.

(** One round of the loop at an unrecognised character after [%]:
    both characters are copied when they and a terminator fit. *)
Lemma expand_unrecognized (l : limits_t) (c : ascii) (rest buf : string) :
  recognized c = false ->
  c <> zero ->
  strlen buf + 2 < BUFSIZ ->
  expand sensor_type_s BUFSIZ l (String "%" (String c rest)) buf =
  expand sensor_type_s BUFSIZ l rest (buf ++ String "%" (String c "")).
Proof.
  intros Hr Hz Hn.
  cbn [expand].
  destruct (BUFSIZ <=? strlen buf) eqn:E1; [lia|].
  change (("%" =? zero)%char) with false.
  change (negb ("%" =? "%")%char) with false. cbv iota.
  apply Ascii.eqb_neq in Hz. rewrite Hz.
  rewrite placeholder_unrecognized by assumption.
  change (strlen (String "%" (String c ""))) with 2.
  destruct (2 >=? BUFSIZ - strlen buf) eqn:E2; [lia|].
  reflexivity.
Qed.

Lemma expand_end (l : limits_t) (buf : string) :
  strlen buf < BUFSIZ ->
  expand sensor_type_s BUFSIZ l "" buf = Expanded buf.
Proof.
  intros H. cbn [expand].
  destruct (BUFSIZ <=? strlen buf) eqn:E; [lia|reflexivity].
Qed.

Lemma report_cons (last_report : time_t) (l : limits_t) (rest : list limits_t) :
  report sensor_type_s BUFSIZ last_report (l :: rest) =
  if snd (report_limit sensor_type_s BUFSIZ last_report l)
  then fst (report_limit sensor_type_s BUFSIZ last_report l)
  else (fst (report_limit sensor_type_s BUFSIZ last_report l) ++
        report sensor_type_s BUFSIZ last_report rest)%list.
Proof.
  cbn [report].
  destruct (report_limit sensor_type_s BUFSIZ last_report l) as [evs r].
  reflexivity.
Qed.

(** The only gate of the reporter is the change time. *)
Lemma report_limit_silent (last_report : time_t) (l : limits_t) :
  status_changed l <= last_report ->
  report_limit sensor_type_s BUFSIZ last_report l = ([], false).
Proof.
  intros H. unfold report_limit.
  destruct (status_changed l <=? last_report) eqn:E; [reflexivity|lia].
Qed.

Lemma report_limit_speaks (last_report : time_t) (l : limits_t) :
  last_report < status_changed l ->
  exists evs r,
    report_limit sensor_type_s BUFSIZ last_report l =
    (Syslog LOG_ALERT (alert_line sensor_type_s l) :: evs, r).
Proof.
  intros H. unfold report_limit.
  destruct (status_changed l <=? last_report) eqn:E; [lia|].
  destruct (command l) as [cmd|]; [|eauto].
  destruct (expand sensor_type_s BUFSIZ l cmd "") as [[|a b]| |[|a b]]; eauto.
Qed.

Lemma report_skip (last_report : time_t) (l : limits_t)
  (pre post : list limits_t) :
  report_limit sensor_type_s BUFSIZ last_report l = ([], false) ->
  report sensor_type_s BUFSIZ last_report (pre ++ l :: post) =
  report sensor_type_s BUFSIZ last_report (pre ++ post).
Proof.
  intros H. induction pre as [|p pre IH].
  - cbn [app]. rewrite report_cons, H. reflexivity.
  - cbn [app]. rewrite !report_cons, IH. reflexivity.
Qed.

(** When a substitution does not fit, [report] logs the failure and
    returns: the entries after it are not looked at in this pass. *)
Lemma report_overflow_returns (last_report : time_t) (l : limits_t)
  (cmd : string) (rest : list limits_t) :
  last_report < status_changed l ->
  command l = Some cmd ->
  expand sensor_type_s BUFSIZ l cmd "" = Overflow ->
  report sensor_type_s BUFSIZ last_report (l :: rest) =
  [Syslog LOG_ALERT (alert_line sensor_type_s l);
   Syslog LOG_CRIT "could not parse command"].
Proof.
  intros Ht Hc Hx. rewrite report_cons. unfold report_limit.
  destruct (status_changed l <=? last_report) eqn:E; [lia|].
  rewrite Hc, Hx. reflexivity.
Qed.

End ReportFacts.

(** A sampling pass returns every disabled entry as it was. *)
Lemma check_sensors_disabled (sysctl : sysctl_t) (now : time_t) :
  forall (limits limits' : list limits_t),
    check_sensors sysctl now limits = Ret limits' ->
    Forall2 (fun l l' => watch l = false -> l' = l) limits limits'.
Proof.
  induction limits as [|l limits IH]; intros limits' H.
  - cbn in H. injection H as <-. constructor.
  - cbn [check_sensors] in H.
    destruct (watch l) eqn:W.
    + destruct (sysctl (dev l) (type l) (numt l)) as [s|]; [|discriminate].
      destruct (check_sensors sysctl now limits) as [r| |] eqn:E;
        try discriminate.
      cbn in H. injection H as <-.
      constructor; [congruence | now apply IH].
    + destruct (check_sensors sysctl now limits) as [r| |] eqn:E;
        try discriminate.
      cbn in H. injection H as <-.
      constructor; [reflexivity | now apply IH].
Qed.

(** A sampling pass returns when every reading of a watched entry can be
    taken, with each watched entry stepped by [check_limit]. *)
Lemma check_sensors_returns (sysctl : sysctl_t) (now : time_t) :
  forall (limits : list limits_t),
    (forall l, In l limits -> watch l = true ->
               sysctl (dev l) (type l) (numt l) <> None) ->
    check_sensors sysctl now limits =
    Ret (map (fun l =>
                if watch l then
                  match sysctl (dev l) (type l) (numt l) with
                  | Some s => check_limit s now l
                  | None => l
                  end
                else l) limits).
Proof.
  induction limits as [|l limits IH]; intros H; [reflexivity|].
  cbn [check_sensors map].
  rewrite IH by (intros; apply H; [right|]; assumption).
  destruct (watch l) eqn:W.
  - destruct (sysctl (dev l) (type l) (numt l)) as [s|] eqn:E.
    + reflexivity.
    + exfalso. apply (H l); [left; reflexivity | assumption | assumption].
  - reflexivity.
Qed.

Example expand_spec_example :
  expand type_names 1024
    (mk_limits "cpu0" 0 SENSOR_TEMP 0 353150000 LLONG_MIN LLONG_MAX None 80
               SENSOR_S_CRIT SENSOR_S_CRIT 3 true)
    "%x-%t%n:%2" "" = Expanded "cpu0-temp0:80.00 degC".
Proof. vm_compute. reflexivity. Qed.

Example report_short_template :
  report type_names 1024 60 [fan_short_template] =
  [Syslog LOG_ALERT "hw.sensors.lm0.fan0: exceed limits, value: 200 RPM";
   Execute "echo lm0 fan0 200 RPM"].
Proof. vm_compute. reflexivity. Qed.

Example cpu_after_four_passes_value :
  cpu_after_four_passes =
  Ret [mk_limits "cpu0" 0 SENSOR_TEMP 0 353150000 LLONG_MIN 333160000
                 (Some "echo %x %2") 80 SENSOR_S_CRIT SENSOR_S_CRIT 3 true].
Proof. vm_compute. reflexivity. Qed.

(** A template of [BUFSIZ] literal characters fills the buffer through
    the copying branch, which has no check of its own: the loop is left
    by its guard without a terminator and without a logged failure, and
    [execute] is called on the unterminated buffer. *)
Lemma report_literal_overflow :
  report type_names 1024 60 [fan_literal_template] =
  [Syslog LOG_ALERT "hw.sensors.lm0.fan0: exceed limits, value: 200 RPM";
   ExecuteUnterminated (replicate 1024 "a")].
Proof. vm_compute. reflexivity. Qed.

(** C5, evaluated at the failing input.  Both entries changed after the
    last report.  The expansion of the first template does not fit into
    the buffer: the failure is logged and no command is run for it, but
    [report] returns there, and the second entry, which alone is reported
    with its command, gets neither its log line nor its command in this
    pass. *)
Theorem template_overflow_ends_the_pass :
  report type_names 1024 60 [temp_long_template; fan_short_template] =
    [Syslog LOG_ALERT "hw.sensors.cpu0.temp0: exceed limits, value: 80.00 degC";
     Syslog LOG_CRIT "could not parse command"] /\
  report type_names 1024 60 [fan_short_template] =
    [Syslog LOG_ALERT "hw.sensors.lm0.fan0: exceed limits, value: 200 RPM";
     Execute "echo lm0 fan0 200 RPM"].
Proof. split; vm_compute; reflexivity. Qed.

(** C7 (as amended).  A [%] followed by a character that is not one of
    x, t, n, 2, 3, 4 is copied together with that character, wherever it
    stands in the template and whenever the two characters and the
    terminator fit; the character may be another [%].  So the template
    [%%] expands to the two characters [%%], and [%q] to [%q]. *)
Theorem unrecognized_placeholder_keeps_both_characters :
  forall (sensor_type_s : sensor_type -> string) (BUFSIZ : Z) (l : limits_t),
    2 < BUFSIZ ->
    (forall (c : ascii) (rest buf : string),
        recognized c = false -> c <> zero -> strlen buf + 2 < BUFSIZ ->
        expand sensor_type_s BUFSIZ l (String "%" (String c rest)) buf =
        expand sensor_type_s BUFSIZ l rest (buf ++ String "%" (String c ""))) /\
    expand sensor_type_s BUFSIZ l "%%" "" = Expanded "%%" /\
    expand sensor_type_s BUFSIZ l "%q" "" = Expanded "%q".
Proof.
  intros tys B l HB. split; [|split].
  - intros c rest buf. apply expand_unrecognized.
  - rewrite expand_unrecognized; [| reflexivity | discriminate | cbn; lia].
    apply expand_end. cbn. lia.
  - rewrite expand_unrecognized; [| reflexivity | discriminate | cbn; lia].
    apply expand_end. cbn. lia.
Qed.

Lemma unrecognized_placeholder_keeps_both_characters_witness :
  expand type_names 1024 fan_short_template "%%" "" = Expanded "%%" /\
  expand type_names 1024 fan_short_template "%q" "" = Expanded "%q".
Proof.
  apply (unrecognized_placeholder_keeps_both_characters
           type_names 1024 fan_short_template).
  reflexivity.
Defined.

(** C7 as stated fails: the template [%%] does not expand to a single
    [%]; the command that is run for it holds both characters. *)
Lemma double_percent_counterexample :
  expand type_names 1024 fan_short_template "%%" "" <> Expanded "%" /\
  expand type_names 1024 fan_short_template "echo 100%%" "" =
    Expanded "echo 100%%".
Proof. split; [vm_compute; discriminate | vm_compute; reflexivity]. Qed.

(** C9 (as amended).  A sampling pass returns every entry whose watch
    flag is off exactly as it was, so a disabled sensor never transitions
    and its change time never moves.  The reporter does not look at the
    flag: it is silent for such an entry, and the pass is the same as
    without it, whenever the entry's change time is not newer than the
    previous report. *)
Theorem disabled_sensor_is_not_sampled_and_silent_once_reported :
  forall (sensor_type_s : sensor_type -> string) (BUFSIZ : Z),
    (forall (sysctl : sysctl_t) (now : time_t) (limits limits' : list limits_t),
        check_sensors sysctl now limits = Ret limits' ->
        Forall2 (fun l l' => watch l = false -> l' = l) limits limits') /\
    (forall (last_report : time_t) (l : limits_t) (pre post : list limits_t),
        watch l = false ->
        status_changed l <= last_report ->
        report_limit sensor_type_s BUFSIZ last_report l = ([], false) /\
        report sensor_type_s BUFSIZ last_report (pre ++ l :: post) =
        report sensor_type_s BUFSIZ last_report (pre ++ post)).
Proof.
  intros tys B. split.
  - intros sysctl now. apply check_sensors_disabled.
  - intros last l pre post _ H.
    pose proof (report_limit_silent tys B last l H) as S.
    split; [exact S | now apply report_skip].
Qed.

Lemma disabled_sensor_is_not_sampled_and_silent_once_reported_witness :
  Forall2 (fun l l' => watch l = false -> l' = l)
    [set_watch false temp_crit; fan_ok]
    [set_watch false temp_crit; check_limit (fst (crit_at 100)) 100 fan_ok] /\
  report type_names 1024 60 ([fan_short_template] ++ set_watch false temp_crit :: []) =
  report type_names 1024 60 ([fan_short_template] ++ []).
Proof.
  split.
  - apply (proj1 (disabled_sensor_is_not_sampled_and_silent_once_reported
                    type_names 1024)
             (fun _ _ _ => Some (fst (crit_at 100))) 100).
    reflexivity.
  - apply (proj2 (disabled_sensor_is_not_sampled_and_silent_once_reported
                    type_names 1024) 60 (set_watch false temp_crit)).
    + reflexivity.
    + simpl. discriminate.
Defined.

(** C9 as stated fails for the reporter.  The sensor is watched, turns
    CRIT in the pass at time 80 and is then dropped from the
    configuration by a reload; its flag is off, and the next report
    (previous report at 60) still logs it and runs its command. *)
Lemma disabled_sensor_reported_counterexample :
  (limits <- cpu_after_four_passes ;;
   r <- parse_config type_names cfg_none limits ;;
   Ret (map watch (snd r), report type_names 1024 60 (snd r))) =
  Ret ([false],
       [Syslog LOG_ALERT "hw.sensors.cpu0.temp0: exceed limits, value: 80.00 degC";
        Execute "echo cpu0 80.00 degC"]).
Proof. vm_compute. reflexivity. Qed.

(* ================================================================== *)
(** * The unit parser and the configuration loader                     *)
(* ================================================================== *)

Lemma get_val_absent (upper : bool) (ty : sensor_type) :
  get_val None upper ty = Ret (if upper then LLONG_MAX else LLONG_MIN).
Proof. reflexivity. Qed.

Section ConfigFacts.

Variable sensor_type_s : sensor_type -> string.
Variable cf : config_t.

(** [parse_config] writes the flag, the bounds and the command, and
    nothing else: identity and run-time state of every entry come out
    as they went in, and an entry without a record only has its flag
    cleared. *)
Lemma parse_config_keeps_state :
  forall (limits limits' : list limits_t) (n : Z),
    parse_config sensor_type_s cf limits = Ret (n, limits') ->
    Forall2 (fun p p' =>
               same_identity p p' /\ same_state p p' /\
               (cf (node_name sensor_type_s p) = None ->
                p' = set_watch false p) /\
               (cf (node_name sensor_type_s p) <> None -> watch p' = true))
            limits limits'.
Proof.
  induction limits as [|p limits IH]; intros limits' n H.
  - cbn in H. injection H as <- <-. constructor.
  - cbn [parse_config] in H.
    destruct (cf (node_name sensor_type_s p)) as [rec|] eqn:E.
    + destruct (get_val (cap_low rec) false (type p)) as [lo| |];
        try discriminate.
      destruct (get_val (cap_high rec) true (type p)) as [up| |];
        try discriminate.
      cbn [bind] in H.
      destruct (parse_config sensor_type_s cf limits) as [[m r]| |] eqn:R;
        try discriminate.
      cbn in H. injection H as <- <-.
      constructor; [|eapply IH; reflexivity].
      unfold same_identity, same_state.
      repeat split; try reflexivity; intros; try reflexivity; congruence.
    + destruct (parse_config sensor_type_s cf limits) as [[m r]| |] eqn:R;
        try discriminate.
      cbn in H. injection H as <- <-.
      constructor; [|eapply IH; reflexivity].
      unfold same_identity, same_state.
      repeat split; try reflexivity; intros; try reflexivity; congruence.
Qed.

(** The count of watches is never negative. *)
Lemma parse_config_count :
  forall (limits limits' : list limits_t) (n : Z),
    parse_config sensor_type_s cf limits = Ret (n, limits') -> 0 <= n.
Proof.
  induction limits as [|p limits IH]; intros limits' n H.
  - cbn in H. injection H as <- <-. lia.
  - cbn [parse_config] in H.
    destruct (cf (node_name sensor_type_s p)) as [rec|].
    + destruct (get_val (cap_low rec) false (type p)) as [lo| |];
        try discriminate.
      destruct (get_val (cap_high rec) true (type p)) as [up| |];
        try discriminate.
      cbn [bind] in H.
      destruct (parse_config sensor_type_s cf limits) as [[m r]| |] eqn:R;
        try discriminate.
      cbn in H. injection H as <- <-.
      specialize (IH r m eq_refl). lia.
    + destruct (parse_config sensor_type_s cf limits) as [[m r]| |] eqn:R;
        try discriminate.
      cbn in H. injection H as <- <-.
      exact (IH r m eq_refl).
Qed.

(** Hence the branch of the reload that logs "error in config file"
    is never taken: a reload that returns logs "configuration
    reloaded". *)
Lemma main_reload_log :
  forall (limits limits' : list limits_t) (evs : list event),
    main_reload sensor_type_s cf limits = Ret (evs, limits') ->
    exists n, evs = [Syslog LOG_INFO ("configuration reloaded, " ++ dec n ++
                                      " watches")].
Proof.
  intros limits limits' evs H. unfold main_reload in H.
  destruct (parse_config sensor_type_s cf limits) as [[n r]| |] eqn:R;
    try discriminate.
  cbn [bind fst snd] in H.
  pose proof (parse_config_count _ _ _ R).
  destruct (n =? -1) eqn:E; [lia|].
  injection H as <- <-. exists n. reflexivity.
Qed.

(** A fatal error of [get_val] is fatal for the reload too. *)
Lemma main_reload_exit :
  forall (limits : list limits_t) (code : Z) (diag : string),
    parse_config sensor_type_s cf limits = Exit code diag ->
    main_reload sensor_type_s cf limits = Exit code diag.
Proof. intros limits code diag H. unfold main_reload. now rewrite H. Qed.

(** When no record gives a bound, [parse_config] returns, and every
    watched entry gets the two defaults. *)
Lemma parse_config_without_bounds :
  forall (limits : list limits_t),
    (forall p rec, In p limits ->
                   cf (node_name sensor_type_s p) = Some rec ->
                   cap_low rec = None /\ cap_high rec = None) ->
    exists n limits',
      parse_config sensor_type_s cf limits = Ret (n, limits') /\
      Forall (fun p' => watch p' = true ->
                        lower p' = LLONG_MIN /\ upper p' = LLONG_MAX) limits'.
Proof.
  induction limits as [|p limits IH]; intros H.
  - exists 0, []. split; [reflexivity|constructor].
  - destruct IH as (n & r & R & F).
    { intros q rec Hq. apply H. now right. }
    cbn [parse_config]. rewrite R.
    destruct (cf (node_name sensor_type_s p)) as [rec|] eqn:E.
    + destruct (H p rec (or_introl eq_refl) E) as [-> ->].
      rewrite !get_val_absent. cbn [bind fst snd].
      eexists _, _. split; [reflexivity|].
      constructor; [cbn; auto | exact F].
    + cbn [bind fst snd]. eexists _, _. split; [reflexivity|].
      constructor; [cbn; discriminate | exact F].
Qed.

End ConfigFacts.

Example get_val_rejects_kelvin :
  get_val (Some "25K") false SENSOR_TEMP = Exit 1 "unknown unit K for temp sensor".
Proof. vm_compute. reflexivity. Qed.

Example get_val_fahrenheit :
  get_val (Some "212F") true SENSOR_TEMP = Ret 373160000.
Proof. vm_compute. reflexivity. Qed.

Example get_val_volts :
  get_val (Some "12.5V") true SENSOR_VOLTS_DC = Ret 12500000.
Proof. vm_compute. reflexivity. Qed.

Example get_val_amps_unsupported :
  get_val (Some "5") true SENSOR_AMPS = Exit 1 "unsupported sensor type".
Proof. vm_compute. reflexivity. Qed.

(** C4, evaluated at the failing input.  The daemon is running with
    [cpu0]'s temperature watched and confirmed CRIT.  A reload whose
    record carries the lower bound 25K, or the upper bound "hot", ends
    the process with status 1 out of [get_val], exactly as the initial
    load of the same file does; nothing is left running that could
    retain a watch list or log the failure. *)
Theorem reload_with_malformed_value_exits :
  (limits <- cpu_after_four_passes ;;
   main_reload type_names cfg_bad_unit limits) =
    Exit 1 "unknown unit K for temp sensor" /\
  (limits <- cpu_after_four_passes ;;
   main_reload type_names cfg_bad_number limits) =
    Exit 1 "incorrect value: hot" /\
  main_load type_names cfg_bad_unit [cpu_temp0] =
    Exit 1 "unknown unit K for temp sensor".
Proof. repeat split; vm_compute; reflexivity. Qed.

(** C6 (as amended).  A reload that returns keeps the identity and the
    run-time state (last value, confirmed status, pending status,
    counter, change time) of every entry of the list, whether its sensor
    is still configured or not: an entry without a record only has its
    watch flag cleared, an entry with a record has the flag set. *)
Theorem reload_keeps_the_state_of_every_sensor :
  forall (sensor_type_s : sensor_type -> string) (cf : config_t)
         (limits limits' : list limits_t) (n : Z),
    parse_config sensor_type_s cf limits = Ret (n, limits') ->
    Forall2 (fun p p' =>
               same_identity p p' /\ same_state p p' /\
               (cf (node_name sensor_type_s p) = None ->
                p' = set_watch false p) /\
               (cf (node_name sensor_type_s p) <> None -> watch p' = true))
            limits limits'.
Proof. intros tys cf. apply parse_config_keeps_state. Qed.

Lemma reload_keeps_the_state_of_every_sensor_witness :
  Forall2 (fun p p' =>
             same_identity p p' /\ same_state p p' /\
             (cfg_watch (node_name type_names p) = None ->
              p' = set_watch false p) /\
             (cfg_watch (node_name type_names p) <> None -> watch p' = true))
          [temp_crit; fan_ok]
          [set_config LLONG_MIN 333160000 (Some "echo %x %2") temp_crit;
           set_watch false fan_ok].
Proof.
  apply (reload_keeps_the_state_of_every_sensor type_names cfg_watch
           [temp_crit; fan_ok] _ 1).
  vm_compute. reflexivity.
Defined.

(** C6 as stated fails for the removed sensor.  The reload that drops
    [cpu0]'s record leaves its entry with the flag off and with the
    state it had (CRIT confirmed and pending, counter 3, last value,
    change time 80), which is not the state of a new entry; a later
    reload that names the sensor again finds that state in force. *)
Lemma removed_sensor_state_counterexample :
  (limits <- cpu_after_four_passes ;;
   r1 <- parse_config type_names cfg_none limits ;;
   r2 <- parse_config type_names cfg_watch (snd r1) ;;
   Ret (snd r1, snd r2)) =
  Ret ([mk_limits "cpu0" 0 SENSOR_TEMP 0 353150000 LLONG_MIN 333160000
                  (Some "echo %x %2") 80 SENSOR_S_CRIT SENSOR_S_CRIT 3 false],
       [mk_limits "cpu0" 0 SENSOR_TEMP 0 353150000 LLONG_MIN 333160000
                  (Some "echo %x %2") 80 SENSOR_S_CRIT SENSOR_S_CRIT 3 true]) /\
  ~ same_state cpu_temp0
      (mk_limits "cpu0" 0 SENSOR_TEMP 0 353150000 LLONG_MIN 333160000
                 (Some "echo %x %2") 80 SENSOR_S_CRIT SENSOR_S_CRIT 3 false).
Proof.
  split; [vm_compute; reflexivity|].
  unfold same_state. cbn. intros (H & _). discriminate H.
Qed.

(** C8, evaluated at the failing input.  [get_val] turns "25C" into
    298160000 micro-kelvin, adding 273.16, and [print_sensor], which
    subtracts 273150000, shows that value as 25.01 degC; the value that
    is shown as 25.00 degC is 298150000. *)
Theorem celsius_round_trip_is_off_by_a_hundredth :
  get_val (Some "25C") false SENSOR_TEMP = Ret 298160000 /\
  get_val (Some "25C") true SENSOR_TEMP = Ret 298160000 /\
  print_sensor SENSOR_TEMP 298160000 = "25.01 degC" /\
  print_sensor SENSOR_TEMP 298150000 = "25.00 degC".
Proof. repeat split; vm_compute; reflexivity. Qed.

(** C10.  For every sensor type and both kinds of bound, an absent bound
    string makes [get_val] return the default at once (the least 64-bit
    integer for a lower bound, the greatest for an upper one); and a
    configuration whose records give neither [low] nor [high] is loaded
    without a fatal error whatever the types of its sensors, each
    watched entry getting the two defaults. *)
Theorem absent_bound_is_default_before_validation :
  forall (sensor_type_s : sensor_type -> string),
    (forall (upper : bool) (ty : sensor_type),
        get_val None upper ty = Ret (if upper then LLONG_MAX else LLONG_MIN)) /\
    (forall (cf : config_t) (limits : list limits_t),
        (forall p rec, In p limits ->
                       cf (node_name sensor_type_s p) = Some rec ->
                       cap_low rec = None /\ cap_high rec = None) ->
        exists n limits',
          parse_config sensor_type_s cf limits = Ret (n, limits') /\
          Forall (fun p' => watch p' = true ->
                            lower p' = LLONG_MIN /\ upper p' = LLONG_MAX)
                 limits').
Proof.
  intros tys. split.
  - exact get_val_absent.
  - apply parse_config_without_bounds.
Qed.

Lemma absent_bound_is_default_before_validation_witness :
  get_val None true SENSOR_AMPS = Ret LLONG_MAX /\
  exists n limits',
    parse_config type_names cfg_amps [amps0] = Ret (n, limits') /\
    Forall (fun p' => watch p' = true ->
                      lower p' = LLONG_MIN /\ upper p' = LLONG_MAX) limits'.
Proof.
  split.
  - apply (proj1 (absent_bound_is_default_before_validation type_names)
             true SENSOR_AMPS).
  - apply (proj2 (absent_bound_is_default_before_validation type_names)
             cfg_amps [amps0]).
    intros p rec [<-|[]] H.
    vm_compute in H. injection H as <-. split; reflexivity.
Defined.

Example parse_config_amps :
  parse_config type_names cfg_amps [amps0] =
  Ret (1, [mk_limits "lm0" 0 SENSOR_AMPS 0 0 LLONG_MIN LLONG_MAX
                     (Some "logger amps") 0 SENSOR_S_UNSPEC SENSOR_S_UNSPEC 0
                     true]).
Proof. vm_compute. reflexivity. Qed.

(* ================================================================== *)
(** * Further properties of the hysteresis engine                      *)
(* ================================================================== *)

(** X1.  Every sampling pass that returns keeps the counter of every
    entry within 0..3, and at most 2 while a status is pending, so the
    [int] counter cannot overflow; the entries [calloc] makes start
    inside this range. *)
Theorem check_sensors_keeps_counter_bounded :
  forall (sysctl : sysctl_t) (now : time_t) (limits limits' : list limits_t),
    Forall count_inv limits ->
    check_sensors sysctl now limits = Ret limits' ->
    Forall count_inv limits'.
Proof.
  intros sysctl now. induction limits as [|l limits IH]; intros limits' F H.
  - cbn in H. injection H as <-. constructor.
  - cbn [check_sensors] in H.
    pose proof (Forall_inv F) as Fl. apply Forall_inv_tail in F.
    destruct (watch l).
    + destruct (sysctl (dev l) (type l) (numt l)) as [s|]; [|discriminate].
      destruct (check_sensors sysctl now limits) as [r| |] eqn:E;
        try discriminate.
      cbn in H. injection H as <-.
      constructor; [now apply check_limit_count_inv | now apply IH].
    + destruct (check_sensors sysctl now limits) as [r| |] eqn:E;
        try discriminate.
      cbn in H. injection H as <-.
      constructor; [assumption | now apply IH].
Qed.

Lemma check_sensors_keeps_counter_bounded_witness :
  Forall count_inv [check_limit (fst (crit_at 100)) 100 fan_ok].
Proof.
  apply (check_sensors_keeps_counter_bounded
           (fun _ _ _ => Some (fst (crit_at 100))) 100 [fan_ok]).
  - constructor; [|constructor].
    unfold count_inv. simpl. split; [lia | intros _; lia].
  - reflexivity.
Defined.

(** X2.  The confirmed status and the change time move together: a
    sample either leaves both as they were, or makes the candidate the
    confirmed and the pending status, different from the old confirmed
    one, and stamps the change time with the clock of the sample. *)
Theorem status_changes_exactly_when_stamped :
  forall (s : sensor) (now : time_t) (l : limits_t),
    (status (check_limit s now l) = status l /\
     status_changed (check_limit s now l) = status_changed l) \/
    (status (check_limit s now l) = newstatus_of l s /\
     status (check_limit s now l) <> status l /\
     status2 (check_limit s now l) = newstatus_of l s /\
     status_changed (check_limit s now l) = now).
Proof.
  intros s now l.
  destruct (status_eqb (status l) (newstatus_of l s)) eqn:E1.
  - apply status_eqb_eq in E1. left.
    rewrite check_limit_same by auto. cbn. auto.
  - apply status_eqb_neq in E1.
    destruct (status_eqb (newstatus_of l s) SENSOR_S_OK) eqn:E2.
    + apply status_eqb_eq in E2. right.
      rewrite check_limit_recover by congruence. cbn.
      rewrite E2. repeat split; congruence.
    + apply status_eqb_neq in E2.
      destruct (status_eqb (status2 l) (newstatus_of l s)) eqn:E3.
      * apply status_eqb_eq in E3. rewrite check_limit_count by auto.
        destruct (count l + 1 >=? 3); cbn; [right | left]; auto.
      * apply status_eqb_neq in E3. left.
        rewrite check_limit_open by auto. cbn. auto.
Qed.

(** X3.  Unset bounds never trigger: with the defaults [get_val] gives
    for absent bounds, every 64-bit reading of unspecified status has
    candidate OK. *)
Theorem default_bounds_never_trigger :
  forall (l : limits_t) (s : sensor),
    lower l = LLONG_MIN -> upper l = LLONG_MAX ->
    sensor_stat s = SENSOR_S_UNSPEC ->
    LLONG_MIN <= sensor_value s <= LLONG_MAX ->
    newstatus_of l s = SENSOR_S_OK.
Proof.
  intros l s Hl Hu Hs Hv. unfold newstatus_of. rewrite Hs, Hl, Hu.
  destruct (sensor_value s >? LLONG_MAX) eqn:E1; [lia|].
  destruct (sensor_value s <? LLONG_MIN) eqn:E2; [lia|].
  reflexivity.
Qed.

Lemma default_bounds_never_trigger_witness :
  newstatus_of (set_config LLONG_MIN LLONG_MAX None cpu_temp0)
               (mk_sensor LLONG_MAX SENSOR_S_UNSPEC) = SENSOR_S_OK.
Proof.
  apply default_bounds_never_trigger.
  - reflexivity.
  - reflexivity.
  - reflexivity.
  - simpl. split; discriminate.
Defined.

(** X4.  A sampling pass ends the process exactly when the reading of
    some watched entry cannot be taken, with status 1; readings of
    entries that are not watched are never asked for.  Otherwise it
    returns the list with each watched entry stepped by its reading. *)
Theorem check_sensors_exits_iff_watched_read_fails :
  forall (sysctl : sysctl_t) (now : time_t) (limits : list limits_t),
    (check_sensors sysctl now limits = Exit 1 "sysctl" <->
     exists l, In l limits /\ watch l = true /\
               sysctl (dev l) (type l) (numt l) = None) /\
    (check_sensors sysctl now limits <> Exit 1 "sysctl" ->
     check_sensors sysctl now limits =
     Ret (map (fun l =>
                 if watch l then
                   match sysctl (dev l) (type l) (numt l) with
                   | Some s => check_limit s now l
                   | None => l
                   end
                 else l) limits)).
Proof.
  intros sysctl now limits.
  assert (A : (exists l, In l limits /\ watch l = true /\
                         sysctl (dev l) (type l) (numt l) = None) ->
              check_sensors sysctl now limits = Exit 1 "sysctl").
  { induction limits as [|p limits IH]; intros (l & Hin & W & S).
    - destruct Hin.
    - cbn [check_sensors]. destruct Hin as [<-|Hin].
      + rewrite W, S. reflexivity.
      + rewrite IH by eauto.
        destruct (watch p); [|reflexivity].
        destruct (sysctl (dev p) (type p) (numt p)); reflexivity. }
  assert (B : ~ (exists l, In l limits /\ watch l = true /\
                           sysctl (dev l) (type l) (numt l) = None) ->
              check_sensors sysctl now limits =
              Ret (map (fun l =>
                          if watch l then
                            match sysctl (dev l) (type l) (numt l) with
                            | Some s => check_limit s now l
                            | None => l
                            end
                          else l) limits)).
  { intros N. apply check_sensors_returns.
    intros l Hin W S. apply N. eauto. }
  split; [split|].
  - intros H.
    destruct (existsb (fun l => watch l &&
                match sysctl (dev l) (type l) (numt l) with
                | None => true | Some _ => false end) limits) eqn:E.
    + apply existsb_exists in E. destruct E as (l & Hin & Hl).
      apply andb_prop in Hl. destruct Hl as [W S].
      exists l. repeat split; auto.
      destruct (sysctl (dev l) (type l) (numt l)); [discriminate|reflexivity].
    + exfalso. rewrite B in H; [discriminate|].
      intros (l & Hin & W & S).
      assert (T : existsb (fun l => watch l &&
                match sysctl (dev l) (type l) (numt l) with
                | None => true | Some _ => false end) limits = true).
      { apply existsb_exists. exists l. split; [assumption|].
        rewrite W, S. reflexivity. }
      congruence.
  - exact A.
  - intros H. apply B. intros E. apply H, A, E.
Qed.

Lemma check_sensors_exits_iff_watched_read_fails_witness :
  check_sensors (fun _ _ _ => None) 100 [set_watch false temp_crit] =
  Ret (map (fun l =>
              if watch l then
                match (fun _ _ _ => None) (dev l) (type l) (numt l) with
                | Some s => check_limit s 100 l
                | None => l
                end
              else l) [set_watch false temp_crit]).
Proof.
  apply (proj2 (check_sensors_exits_iff_watched_read_fails
                  (fun _ _ _ => None) 100 [set_watch false temp_crit])).
  simpl. discriminate.
Defined.

Lemma alarming_cons (l : limits_t) (st : sensor * time_t)
  (ss : list (sensor * time_t)) :
  alarming l (st :: ss) =
  if status_eqb (newstatus_of l (fst st)) SENSOR_S_OK
  then alarming l ss else S (alarming l ss).
Proof.
  unfold alarming. cbn [filter].
  destruct (status_eqb (newstatus_of l (fst st)) SENSOR_S_OK); reflexivity.
Qed.

Lemma alarming_check_limit (l : limits_t) (s : sensor) (now : time_t)
  (ss : list (sensor * time_t)) :
  alarming (check_limit s now l) ss = alarming l ss.
Proof.
  induction ss as [|st ss IH]; [reflexivity|].
  rewrite !alarming_cons, IH, newstatus_of_check_limit. reflexivity.
Qed.

(** While OK is confirmed, each sample that is not OK advances the
    streak by at most one, and OK samples do not set it back; the
    confirmed status can only change when the progress has reached 3. *)
Lemma feed_stays_ok (ss : list (sensor * time_t)) :
  forall (l : limits_t),
    status l = SENSOR_S_OK ->
    streak_progress l + Z.of_nat (alarming l ss) <= 3 ->
    status (feed l ss) = SENSOR_S_OK /\
    status_changed (feed l ss) = status_changed l.
Proof.
  induction ss as [|st ss IH]; intros l Hs Hb; [cbn; auto|].
  rewrite feed_cons. rewrite alarming_cons in Hb.
  set (l1 := check_limit (fst st) (snd st) l).
  assert (Hp : 0 <= streak_progress l).
  { unfold streak_progress.
    destruct (status_eqb (status2 l) SENSOR_S_OK); lia. }
  destruct (status_eqb (newstatus_of l (fst st)) SENSOR_S_OK) eqn:E1.
  - apply status_eqb_eq in E1.
    assert (E : l1 = set_last_val (sensor_value (fst st)) l)
      by (apply check_limit_same; congruence).
    destruct (IH l1) as [A B].
    + rewrite E. exact Hs.
    + unfold l1. rewrite alarming_check_limit. fold l1. rewrite E.
      exact Hb.
    + rewrite A, B, E. auto.
  - apply status_eqb_neq in E1.
    assert (Hne : status l <> newstatus_of l (fst st)) by congruence.
    destruct (status_eqb (status2 l) (newstatus_of l (fst st))) eqn:E2.
    + apply status_eqb_eq in E2.
      assert (P : streak_progress l = Z.max 0 (count l + 1)).
      { unfold streak_progress.
        destruct (status_eqb (status2 l) SENSOR_S_OK) eqn:E3;
          [apply status_eqb_eq in E3; congruence | reflexivity]. }
      assert (E : l1 = set_status2_count (status2 l) (count l + 1)
                         (set_last_val (sensor_value (fst st)) l)).
      { unfold l1. rewrite check_limit_count by auto.
        destruct (count l + 1 >=? 3) eqn:E4; [lia|reflexivity]. }
      destruct (IH l1) as [A B].
      * rewrite E. exact Hs.
      * unfold l1 at 2. rewrite alarming_check_limit.
        unfold streak_progress. rewrite E.
        cbn [status2 count set_status2_count set_last_val].
        destruct (status_eqb (status2 l) SENSOR_S_OK); lia.
      * rewrite A, B, E. auto.
    + apply status_eqb_neq in E2.
      assert (E : l1 = set_status2_count (newstatus_of l (fst st)) 0
                         (set_last_val (sensor_value (fst st)) l))
        by (apply check_limit_open; auto).
      destruct (IH l1) as [A B].
      * rewrite E. exact Hs.
      * unfold l1 at 2. rewrite alarming_check_limit.
        unfold streak_progress. rewrite E.
        cbn [status2 count set_status2_count set_last_val].
        destruct (status_eqb (newstatus_of l (fst st)) SENSOR_S_OK); lia.
      * rewrite A, B, E. auto.
Qed.

(** X5.  Transient spikes are tolerated: when OK is confirmed and
    nothing is pending, no run of samples with at most three samples
    that are not OK, in any order and with any OK samples in between, changes the
    confirmed status or the change time. *)
Theorem three_bad_samples_never_alarm :
  forall (l : limits_t) (ss : list (sensor * time_t)),
    status l = SENSOR_S_OK ->
    status2 l = SENSOR_S_OK ->
    (alarming l ss <= 3)%nat ->
    status (feed l ss) = SENSOR_S_OK /\
    status_changed (feed l ss) = status_changed l.
Proof.
  intros l ss Hs H2 Ha. apply feed_stays_ok; [assumption|].
  unfold streak_progress. rewrite H2. cbn. lia.
Qed.

Lemma three_bad_samples_never_alarm_witness :
  status (feed fan_ok [crit_at 20; (mk_sensor 3000 SENSOR_S_OK, 40);
                       (mk_sensor 200 SENSOR_S_WARN, 60); crit_at 80])
    = SENSOR_S_OK /\
  status_changed (feed fan_ok [crit_at 20; (mk_sensor 3000 SENSOR_S_OK, 40);
                               (mk_sensor 200 SENSOR_S_WARN, 60); crit_at 80])
    = status_changed fan_ok.
Proof.
  apply three_bad_samples_never_alarm.
  - reflexivity.
  - reflexivity.
  - simpl. repeat constructor.
Defined.

Lemma check_limit_identity (s : sensor) (now : time_t) (l : limits_t) :
  same_identity l (check_limit s now l) /\
  last_val (check_limit s now l) = sensor_value s.
Proof.
  unfold same_identity, check_limit; cbn.
  repeat match goal with |- context [if ?b then _ else _] => destruct b end;
    cbn; auto.
Qed.

Lemma check_limit_respects (s : sensor) (now : time_t) (a b : limits_t) :
  same_hysteresis a b ->
  same_hysteresis (check_limit s now a) (check_limit s now b).
Proof.
  destruct a as [? ? ? ? ? lo up ? sc st st2 ct ?].
  destruct b as [? ? ? ? ? lo' up' ? sc' st' st2' ct' ?].
  unfold same_hysteresis. cbn. intros (-> & -> & -> & -> & -> & ->).
  unfold check_limit, newstatus_of. cbn.
  repeat match goal with |- context [if ?c then _ else _] => destruct c end;
    cbn; repeat split; reflexivity.
Qed.

Lemma feed_respects (ss : list (sensor * time_t)) :
  forall (a b : limits_t),
    same_hysteresis a b -> same_hysteresis (feed a ss) (feed b ss).
Proof.
  induction ss as [|st ss IH]; intros a b H; [exact H|].
  rewrite !feed_cons. apply IH, check_limit_respects, H.
Qed.

Lemma feed_app (l : limits_t) (ss1 ss2 : list (sensor * time_t)) :
  feed l (ss1 ++ ss2) = feed (feed l ss1) ss2.
Proof. unfold feed. apply fold_left_app. Qed.

Lemma newstatus_of_feed (ss : list (sensor * time_t)) :
  forall (l : limits_t) (s : sensor),
    newstatus_of (feed l ss) s = newstatus_of l s.
Proof.
  induction ss as [|st ss IH]; intros l s; [reflexivity|].
  rewrite feed_cons, IH. apply newstatus_of_check_limit.
Qed.

(** X6.  The streak need not be consecutive: a sample whose candidate
    is the confirmed status of the moment changes nothing the
    hysteresis rule works with, neither the pending status nor the
    counter, so the rest of the run ends in the same status fields as
    if that sample had not been taken. *)
Theorem sample_of_the_confirmed_status_is_invisible :
  forall (l : limits_t) (ss1 ss2 : list (sensor * time_t))
         (st : sensor * time_t),
    newstatus_of l (fst st) = status (feed l ss1) ->
    same_hysteresis (feed l (ss1 ++ st :: ss2)) (feed l (ss1 ++ ss2)).
Proof.
  intros l ss1 ss2 st H.
  rewrite !feed_app, feed_cons. apply feed_respects.
  rewrite check_limit_same by (rewrite newstatus_of_feed; exact H).
  unfold same_hysteresis. cbn. repeat split; reflexivity.
Qed.

Lemma sample_of_the_confirmed_status_is_invisible_witness :
  same_hysteresis
    (feed fan_ok ([crit_at 20; crit_at 40; crit_at 60] ++
                  (mk_sensor 3000 SENSOR_S_OK, 80) :: [crit_at 100]))
    (feed fan_ok ([crit_at 20; crit_at 40; crit_at 60] ++ [crit_at 100])).
Proof.
  apply sample_of_the_confirmed_status_is_invisible.
  reflexivity.
Defined.

(** X7.  A sampling pass that returns keeps the length and the order of
    the list and, for every entry, the identity of the sensor and what
    the configuration set (bounds, command, flag); a watched entry
    holds the value of the reading just taken. *)
Theorem check_sensors_keeps_identity_and_config :
  forall (sysctl : sysctl_t) (now : time_t) (limits limits' : list limits_t),
    check_sensors sysctl now limits = Ret limits' ->
    Forall2 (fun l l' =>
               same_identity l l' /\ same_config l l' /\
               (watch l = true ->
                exists s, sysctl (dev l) (type l) (numt l) = Some s /\
                          last_val l' = sensor_value s))
            limits limits'.
Proof.
  intros sysctl now. induction limits as [|l limits IH]; intros limits' H.
  - cbn in H. injection H as <-. constructor.
  - cbn [check_sensors] in H.
    destruct (watch l) eqn:W.
    + destruct (sysctl (dev l) (type l) (numt l)) as [s|] eqn:S;
        [|discriminate].
      destruct (check_sensors sysctl now limits) as [r| |] eqn:E;
        try discriminate.
      cbn in H. injection H as <-.
      constructor; [|now apply IH].
      destruct (check_limit_config s now l) as (A & B & C & D).
      destruct (check_limit_identity s now l) as (I & V).
      split; [exact I|]. split.
      * unfold same_config. repeat split; congruence.
      * intros _. exists s. split; [exact S | exact V].
    + destruct (check_sensors sysctl now limits) as [r| |] eqn:E;
        try discriminate.
      cbn in H. injection H as <-.
      constructor; [|now apply IH].
      unfold same_identity, same_config.
      repeat split; try reflexivity. intros; congruence.
Qed.

Lemma check_sensors_keeps_identity_and_config_witness :
  Forall2 (fun l l' =>
             same_identity l l' /\ same_config l l' /\
             (watch l = true ->
              exists s, sysctl_hot (dev l) (type l) (numt l) = Some s /\
                        last_val l' = sensor_value s))
          [temp_40_60]
          [check_limit (mk_sensor 353150000 SENSOR_S_UNSPEC) 20 temp_40_60].
Proof.
  apply (check_sensors_keeps_identity_and_config sysctl_hot 20 [temp_40_60]).
  reflexivity.
Defined.

(* ================================================================== *)
(** * Further properties of the templater and the reporter             *)
(* ================================================================== *)

Lemma strlen_append (a b : string) : strlen (a ++ b) = strlen a + strlen b.
Proof.
  unfold strlen. induction a as [|c a IH]; cbn [append String.length].
  - lia.
  - rewrite !Nat2Z.inj_succ. lia.
Qed.

Lemma strlen_nonneg (a : string) : 0 <= strlen a.
Proof. unfold strlen. lia. Qed.

Lemma append_nil_r (a : string) : (a ++ "")%string = a.
Proof. induction a as [|c a IH]; cbn; [reflexivity | now rewrite IH]. Qed.

Lemma append_snoc (a b : string) (c : ascii) :
  ((a ++ String c "") ++ b)%string = (a ++ String c b)%string.
Proof. induction a as [|d a IH]; cbn; [reflexivity | now rewrite IH]. Qed.

Section TemplaterFacts.

Variable sensor_type_s : sensor_type -> string.
Variable BUFSIZ : Z.

(** A template of literal characters is copied until the buffer is
    full. *)
Lemma expand_literal (l : limits_t) :
  forall (cmd buf : string),
    literal cmd = true ->
    expand sensor_type_s BUFSIZ l cmd buf =
    if strlen buf + strlen cmd <? BUFSIZ
    then Expanded (buf ++ cmd)
    else Unterminated
           (buf ++ substring 0 (Z.to_nat (BUFSIZ - strlen buf)) cmd).
Proof.
  induction cmd as [|c cmd IH]; intros buf L.
  - cbn [expand]. change (strlen "") with 0. rewrite Z.add_0_r.
    destruct (Z.to_nat (BUFSIZ - strlen buf)); cbn [substring];
      rewrite append_nil_r;
      destruct (BUFSIZ <=? strlen buf) eqn:E1;
      destruct (strlen buf <? BUFSIZ) eqn:E2; try reflexivity; lia.
  - cbn [literal] in L. apply andb_prop in L. destruct L as [Lc L].
    unfold literal_char in Lc. apply andb_prop in Lc. destruct Lc as [L1 L2].
    cbn [expand].
    assert (Hc : strlen (String c cmd) = 1 + strlen cmd).
    { unfold strlen. cbn [String.length]. rewrite Nat2Z.inj_succ. lia. }
    pose proof (strlen_nonneg cmd) as Hn.
    destruct (BUFSIZ <=? strlen buf) eqn:E1.
    + destruct (strlen buf + strlen (String c cmd) <? BUFSIZ) eqn:E2; [lia|].
      replace (Z.to_nat (BUFSIZ - strlen buf)) with 0%nat by lia.
      cbn [substring]. now rewrite append_nil_r.
    + apply negb_true_iff in L2. rewrite L2, L1.
      rewrite (IH _ L). rewrite strlen_append.
      change (strlen (String c "")) with 1.
      rewrite !append_snoc.
      replace (Z.to_nat (BUFSIZ - strlen buf))
        with (S (Z.to_nat (BUFSIZ - (strlen buf + 1)))) by lia.
      cbn [substring].
      destruct (strlen buf + 1 + strlen cmd <? BUFSIZ) eqn:E3;
        destruct (strlen buf + strlen (String c cmd) <? BUFSIZ) eqn:E4;
        try reflexivity; lia.
Qed.

(** The loop never writes past the buffer: whatever the template, an
    expansion that ends at the end of the template leaves room for the
    terminator, and one that is cut by the guard holds exactly [BUFSIZ]
    characters. *)
Lemma expand_bounded (l : limits_t) (n : nat) :
  forall (cmd buf : string),
    (String.length cmd <= n)%nat ->
    strlen buf <= BUFSIZ ->
    match expand sensor_type_s BUFSIZ l cmd buf with
    | Expanded b => strlen b < BUFSIZ
    | Unterminated b => strlen b = BUFSIZ
    | Overflow => True
    end.
Proof.
  induction n as [|n IH]; intros cmd buf Hn Hb.
  - destruct cmd; [|cbn in Hn; lia].
    cbn [expand]. destruct (BUFSIZ <=? strlen buf) eqn:E; lia.
  - destruct cmd as [|c cmd].
    + cbn [expand]. destruct (BUFSIZ <=? strlen buf) eqn:E; lia.
    + cbn [expand]. cbn [String.length] in Hn.
      destruct (BUFSIZ <=? strlen buf) eqn:E; [lia|].
      destruct (c =? zero)%char; [lia|].
      destruct (negb (c =? "%")%char).
      * apply IH; [lia|]. rewrite strlen_append.
        change (strlen (String c "")) with 1. lia.
      * destruct cmd as [|d cmd]; [lia|].
        destruct (d =? zero)%char; [lia|].
        destruct (strlen (placeholder sensor_type_s l d) >=?
                  BUFSIZ - strlen buf) eqn:E2; [exact I|].
        apply IH; [cbn [String.length] in Hn; lia|].
        rewrite strlen_append. lia.
Qed.

End TemplaterFacts.

(** X8.  The templater never writes past its buffer: for every template
    and every entry, an expansion that ends with the template fits with
    its terminator (fewer than [BUFSIZ] characters), and one that is cut
    by the loop guard has filled the buffer exactly. *)
Theorem expand_stays_within_the_buffer :
  forall (sensor_type_s : sensor_type -> string) (BUFSIZ : Z)
         (l : limits_t) (cmd : string),
    0 <= BUFSIZ ->
    match expand sensor_type_s BUFSIZ l cmd "" with
    | Expanded b => strlen b < BUFSIZ
    | Unterminated b => strlen b = BUFSIZ
    | Overflow => True
    end.
Proof.
  intros tys B l cmd HB.
  apply (expand_bounded tys B l (String.length cmd)); [lia | exact HB].
Qed.

Lemma expand_stays_within_the_buffer_witness :
  match expand type_names 1024 fan_short_template "echo %x %t%n %2" "" with
  | Expanded b => strlen b < 1024
  | Unterminated b => strlen b = 1024
  | Overflow => True
  end.
Proof.
  apply (expand_stays_within_the_buffer type_names 1024 fan_short_template).
  discriminate.
Defined.

(** X9.  A template without [%] that fits with its terminator is the
    command, character for character. *)
Theorem literal_template_is_copied :
  forall (sensor_type_s : sensor_type -> string) (BUFSIZ : Z)
         (l : limits_t) (cmd : string),
    literal cmd = true ->
    strlen cmd < BUFSIZ ->
    expand sensor_type_s BUFSIZ l cmd "" = Expanded cmd.
Proof.
  intros tys B l cmd L H. rewrite expand_literal by assumption.
  change (strlen "") with 0. cbn [append Z.add].
  destruct (strlen cmd <? B) eqn:E; [reflexivity | lia].
Qed.

Lemma literal_template_is_copied_witness :
  expand type_names 1024 fan_short_template "logger -p daemon.alert fan" "" =
  Expanded "logger -p daemon.alert fan".
Proof.
  apply literal_template_is_copied.
  - reflexivity.
  - reflexivity.
Defined.

Section ReporterFacts.

Variable sensor_type_s : sensor_type -> string.
Variable BUFSIZ : Z.

Lemma report_limit_alert_lines (last_report : time_t) (l : limits_t) :
  alert_lines (fst (report_limit sensor_type_s BUFSIZ last_report l)) =
  if changed_since last_report l then [alert_line sensor_type_s l] else [].
Proof.
  unfold report_limit, changed_since.
  destruct (status_changed l <=? last_report) eqn:E1;
    destruct (last_report <? status_changed l) eqn:E2; try lia;
    [reflexivity|].
  destruct (command l) as [cmd|]; [|reflexivity].
  destruct (expand sensor_type_s BUFSIZ l cmd "") as [[|a b]| |[|a b]];
    reflexivity.
Qed.

Lemma report_limit_returns_on_overflow (last_report : time_t) (l : limits_t) :
  snd (report_limit sensor_type_s BUFSIZ last_report l) = true ->
  exists cmd, command l = Some cmd /\
              expand sensor_type_s BUFSIZ l cmd "" = Overflow.
Proof.
  unfold report_limit.
  destruct (status_changed l <=? last_report); [discriminate|].
  destruct (command l) as [cmd|]; [|discriminate].
  destruct (expand sensor_type_s BUFSIZ l cmd "") as [[|a b]| |[|a b]] eqn:X;
    cbn; try discriminate.
  intros _. exists cmd. split; [reflexivity | exact X].
Qed.

Lemma alert_lines_app (a b : list event) :
  alert_lines (a ++ b) = (alert_lines a ++ alert_lines b)%list.
Proof. unfold alert_lines. apply flat_map_app. Qed.

Lemma report_event_origin (last_report : time_t) (e : event) :
  forall (limits : list limits_t),
    In e (report sensor_type_s BUFSIZ last_report limits) ->
    exists l, In l limits /\
              In e (fst (report_limit sensor_type_s BUFSIZ last_report l)).
Proof.
  induction limits as [|p limits IH]; intros H; [destruct H|].
  rewrite report_cons in H.
  destruct (snd (report_limit sensor_type_s BUFSIZ last_report p)).
  - exists p. split; [left; reflexivity | exact H].
  - apply in_app_or in H. destruct H as [H|H].
    + exists p. split; [left; reflexivity | exact H].
    + destruct (IH H) as (l & Hin & He). exists l. split; [now right|exact He].
Qed.

End ReporterFacts.

(** X10.  A template of literal characters that is as long as the buffer
    or longer is not rejected: the entry is logged, no failure is
    reported, and [execute] is called on the first [BUFSIZ] characters,
    which fill the buffer and leave no room for a terminator. *)
Theorem long_literal_template_runs_unterminated :
  forall (sensor_type_s : sensor_type -> string) (BUFSIZ : Z)
         (last_report : time_t) (l : limits_t) (cmd : string),
    0 < BUFSIZ ->
    last_report < status_changed l ->
    command l = Some cmd ->
    literal cmd = true ->
    BUFSIZ <= strlen cmd ->
    report_limit sensor_type_s BUFSIZ last_report l =
    ([Syslog LOG_ALERT (alert_line sensor_type_s l);
      ExecuteUnterminated (substring 0 (Z.to_nat BUFSIZ) cmd)], false).
Proof.
  intros tys B last l cmd HB Ht Hc L Hlen.
  unfold report_limit.
  destruct (status_changed l <=? last) eqn:E; [lia|].
  rewrite Hc, expand_literal by assumption.
  change (strlen "") with 0. cbn [append Z.add]. rewrite Z.sub_0_r.
  destruct (strlen cmd <? B) eqn:E2; [lia|].
  destruct cmd as [|c cmd]; [cbn in Hlen; lia|].
  destruct (Z.to_nat B) as [|k] eqn:K; [lia|].
  reflexivity.
Qed.

Lemma long_literal_template_runs_unterminated_witness :
  report_limit type_names 4 60
    (set_config 0 0 (Some "halt") fan_short_template) =
  ([Syslog LOG_ALERT
      (alert_line type_names (set_config 0 0 (Some "halt") fan_short_template));
    ExecuteUnterminated (substring 0 (Z.to_nat 4) "halt")], false).
Proof.
  apply long_literal_template_runs_unterminated.
  - reflexivity.
  - reflexivity.
  - reflexivity.
  - reflexivity.
  - simpl. discriminate.
Defined.

Lemma report_alert_lines :
  forall (sensor_type_s : sensor_type -> string) (BUFSIZ : Z)
         (last_report : time_t) (limits : list limits_t),
    (forall l cmd, In l limits -> command l = Some cmd ->
                   expand sensor_type_s BUFSIZ l cmd "" <> Overflow) ->
    alert_lines (report sensor_type_s BUFSIZ last_report limits) =
    map (alert_line sensor_type_s) (filter (changed_since last_report) limits).
Proof.
  intros tys B last. induction limits as [|p limits IH]; intros H.
  - reflexivity.
  - rewrite report_cons.
    destruct (snd (report_limit tys B last p)) eqn:R.
    + exfalso. apply report_limit_returns_on_overflow in R.
      destruct R as (cmd & Hc & Ho).
      exact (H p cmd (or_introl eq_refl) Hc Ho).
    + rewrite alert_lines_app, report_limit_alert_lines, IH
        by (intros l cmd Hin; apply H; now right).
      cbn [filter]. destruct (changed_since last p); reflexivity.
Qed.

(** X11.  When no substitution overflows, a report logs exactly one
    alert line for each entry whose status changed after the previous
    report, in list order, and none for the other entries, watched or
    not, in alarm or not. *)
Theorem report_logs_exactly_the_changed_entries :
  forall (sensor_type_s : sensor_type -> string) (BUFSIZ : Z)
         (last_report : time_t) (limits : list limits_t),
    (forall l cmd, In l limits -> command l = Some cmd ->
                   expand sensor_type_s BUFSIZ l cmd "" <> Overflow) ->
    alert_lines (report sensor_type_s BUFSIZ last_report limits) =
    map (alert_line sensor_type_s) (filter (changed_since last_report) limits).
Proof. exact report_alert_lines. Qed.

Lemma report_logs_exactly_the_changed_entries_witness :
  alert_lines (report type_names 1024 60 [temp_40_60; fan_short_template]) =
  map (alert_line type_names)
      (filter (changed_since 60) [temp_40_60; fan_short_template]).
Proof.
  apply report_logs_exactly_the_changed_entries.
  intros l cmd [<-|[<-|[]]] Hc.
  - discriminate Hc.
  - injection Hc as <-. vm_compute. discriminate.
Defined.

(** X12.  No partial command is ever run through a terminated buffer:
    every command a report hands to [execute] as a terminated string is
    the complete, non-empty expansion of the template of an entry of the
    list whose status changed after the previous report. *)
Theorem executed_command_is_a_complete_expansion :
  forall (sensor_type_s : sensor_type -> string) (BUFSIZ : Z)
         (last_report : time_t) (limits : list limits_t) (c : string),
    In (Execute c) (report sensor_type_s BUFSIZ last_report limits) ->
    exists l cmd,
      In l limits /\ last_report < status_changed l /\
      command l = Some cmd /\
      expand sensor_type_s BUFSIZ l cmd "" = Expanded c /\ c <> "".
Proof.
  intros tys B last limits c H.
  apply report_event_origin in H. destruct H as (l & Hin & He).
  unfold report_limit in He.
  destruct (status_changed l <=? last) eqn:E; [destruct He|].
  destruct (command l) as [cmd|] eqn:Hc.
  - exists l, cmd. split; [exact Hin|]. split; [lia|]. split; [exact Hc|].
    destruct (expand tys B l cmd "") as [[|a b]| |[|a b]]; cbn in He;
      repeat match goal with
             | H : _ \/ _ |- _ => destruct H as [H|H]
             | H : False |- _ => destruct H
             end; try discriminate.
    injection He as <-. split; [reflexivity | discriminate].
  - cbn in He. destruct He as [He|[]]. discriminate He.
Qed.

Lemma executed_command_is_a_complete_expansion_witness :
  exists l cmd,
    In l [fan_short_template] /\ 60 < status_changed l /\
    command l = Some cmd /\
    expand type_names 1024 l cmd "" = Expanded "echo lm0 fan0 200 RPM" /\
    "echo lm0 fan0 200 RPM" <> "".
Proof.
  apply (executed_command_is_a_complete_expansion type_names 1024 60
           [fan_short_template] "echo lm0 fan0 200 RPM").
  vm_compute. right. left. reflexivity.
Defined.

(* ================================================================== *)
(** * Further properties of the configuration loader                   *)
(* ================================================================== *)

Section LoaderFacts.

Variable sensor_type_s : sensor_type -> string.
Variable cf : config_t.

(** What [parse_config] makes of one entry, when it returns. *)
Lemma parse_config_cons (p : limits_t) (limits limits' : list limits_t) (n : Z) :
  parse_config sensor_type_s cf (p :: limits) = Ret (n, limits') ->
  exists m r p',
    parse_config sensor_type_s cf limits = Ret (m, r) /\
    limits' = p' :: r /\
    match cf (node_name sensor_type_s p) with
    | None => n = m /\ p' = set_watch false p
    | Some rec =>
        n = m + 1 /\
        exists lo up,
          get_val (cap_low rec) false (type p) = Ret lo /\
          get_val (cap_high rec) true (type p) = Ret up /\
          p' = set_config lo up
                 match cap_command rec with
                 | Some c => Some c
                 | None => command p
                 end p
    end.
Proof.
  intros H. cbn [parse_config] in H.
  destruct (cf (node_name sensor_type_s p)) as [rec|].
  - destruct (get_val (cap_low rec) false (type p)) as [lo| |];
      try discriminate.
    destruct (get_val (cap_high rec) true (type p)) as [up| |];
      try discriminate.
    cbn [bind] in H.
    destruct (parse_config sensor_type_s cf limits) as [[m r]| |];
      try discriminate.
    cbn in H. injection H as <- <-.
    exists m, r, (set_config lo up
                    match cap_command rec with
                    | Some c => Some c
                    | None => command p
                    end p).
    repeat split. exists lo, up. repeat split.
  - destruct (parse_config sensor_type_s cf limits) as [[m r]| |];
      try discriminate.
    cbn in H. injection H as <- <-.
    exists m, r, (set_watch false p). repeat split.
Qed.

End LoaderFacts.

Lemma parse_config_count_watched :
  forall (sensor_type_s : sensor_type -> string) (cf : config_t)
         (limits limits' : list limits_t) (n : Z),
    parse_config sensor_type_s cf limits = Ret (n, limits') ->
    n = Z.of_nat (List.length (filter watch limits')).
Proof.
  intros tys cf. induction limits as [|p limits IH]; intros limits' n H.
  - cbn in H. injection H as <- <-. reflexivity.
  - apply parse_config_cons in H.
    destruct H as (m & r & p' & R & -> & H).
    specialize (IH r m R).
    destruct (cf (node_name tys p)) as [rec|].
    + destruct H as (-> & lo & up & _ & _ & ->).
      cbn [filter watch set_config List.length]. lia.
    + destruct H as (-> & ->).
      cbn [filter watch set_watch]. exact IH.
Qed.

(** X13.  The number [parse_config] returns is the number of entries it
    leaves watched. *)
Theorem parse_config_counts_the_watched_entries :
  forall (sensor_type_s : sensor_type -> string) (cf : config_t)
         (limits limits' : list limits_t) (n : Z),
    parse_config sensor_type_s cf limits = Ret (n, limits') ->
    n = Z.of_nat (List.length (filter watch limits')).
Proof. exact parse_config_count_watched. Qed.

Lemma parse_config_counts_the_watched_entries_witness :
  1 = Z.of_nat (List.length (filter watch
        [set_config LLONG_MIN 333160000 (Some "echo %x %2") temp_crit;
         set_watch false fan_ok])).
Proof.
  apply (parse_config_counts_the_watched_entries type_names cfg_watch
           [temp_crit; fan_ok]).
  vm_compute. reflexivity.
Defined.

(** X14.  Loading the same configuration again changes nothing: a
    reload of an unchanged file returns the same count and the same
    list. *)
Theorem parse_config_is_idempotent :
  forall (sensor_type_s : sensor_type -> string) (cf : config_t)
         (limits limits' : list limits_t) (n : Z),
    parse_config sensor_type_s cf limits = Ret (n, limits') ->
    parse_config sensor_type_s cf limits' = Ret (n, limits').
Proof.
  intros tys cf. induction limits as [|p limits IH]; intros limits' n H.
  - cbn in H. injection H as <- <-. reflexivity.
  - apply parse_config_cons in H.
    destruct H as (m & r & p' & R & -> & H).
    specialize (IH r m R). cbn [parse_config].
    destruct (cf (node_name tys p)) as [rec|] eqn:E.
    + destruct H as (-> & lo & up & Glo & Gup & ->).
      change (node_name tys (set_config lo up
                match cap_command rec with
                | Some c => Some c
                | None => command p
                end p)) with (node_name tys p).
      rewrite E. cbn [type set_config]. rewrite Glo, Gup. cbn [bind].
      rewrite IH. cbn [bind fst snd command].
      destruct (cap_command rec); reflexivity.
    + destruct H as (-> & ->).
      change (node_name tys (set_watch false p)) with (node_name tys p).
      rewrite E, IH. reflexivity.
Qed.

Lemma parse_config_is_idempotent_witness :
  parse_config type_names cfg_watch
    [set_config LLONG_MIN 333160000 (Some "echo %x %2") temp_crit;
     set_watch false fan_ok] =
  Ret (1, [set_config LLONG_MIN 333160000 (Some "echo %x %2") temp_crit;
           set_watch false fan_ok]).
Proof.
  apply (parse_config_is_idempotent type_names cfg_watch [temp_crit; fan_ok]).
  vm_compute. reflexivity.
Defined.

(** X15.  For an entry that has a record, a load that returns replaces
    both bounds by what [get_val] makes of the record's [low] and
    [high] (the defaults when they are absent) and takes the record's
    command; when the record has no command the entry keeps the command
    it had before the load. *)
Theorem parse_config_replaces_bounds_and_keeps_old_command :
  forall (sensor_type_s : sensor_type -> string) (cf : config_t)
         (limits limits' : list limits_t) (n : Z),
    parse_config sensor_type_s cf limits = Ret (n, limits') ->
    Forall2 (fun p p' =>
               forall rec, cf (node_name sensor_type_s p) = Some rec ->
                 get_val (cap_low rec) false (type p) = Ret (lower p') /\
                 get_val (cap_high rec) true (type p) = Ret (upper p') /\
                 (forall c, cap_command rec = Some c -> command p' = Some c) /\
                 (cap_command rec = None -> command p' = command p))
            limits limits'.
Proof.
  intros tys cf. induction limits as [|p limits IH]; intros limits' n H.
  - cbn in H. injection H as <- <-. constructor.
  - apply parse_config_cons in H.
    destruct H as (m & r & p' & R & -> & H).
    constructor; [|exact (IH r m R)].
    intros rec E. rewrite E in H.
    destruct H as (_ & lo & up & Glo & Gup & ->).
    cbn [lower upper command set_config].
    repeat split; try assumption.
    + intros c Hc. now rewrite Hc.
    + intros Hc. now rewrite Hc.
Qed.

Lemma parse_config_replaces_bounds_and_keeps_old_command_witness :
  Forall2 (fun p p' =>
             forall rec, cfg_fan_bound (node_name type_names p) = Some rec ->
               get_val (cap_low rec) false (type p) = Ret (lower p') /\
               get_val (cap_high rec) true (type p) = Ret (upper p') /\
               (forall c, cap_command rec = Some c -> command p' = Some c) /\
               (cap_command rec = None -> command p' = command p))
          [fan_short_template]
          [set_config 2000 LLONG_MAX (Some "echo %x %t%n %2")
                      fan_short_template].
Proof.
  apply (parse_config_replaces_bounds_and_keeps_old_command
           type_names cfg_fan_bound [fan_short_template] _ 1).
  vm_compute. reflexivity.
Defined.

Lemma parse_config_no_records (sensor_type_s : sensor_type -> string)
  (cf : config_t) :
  forall (limits : list limits_t),
    (forall p, In p limits -> cf (node_name sensor_type_s p) = None) ->
    parse_config sensor_type_s cf limits =
    Ret (0, map (set_watch false) limits).
Proof.
  induction limits as [|p limits IH]; intros H; [reflexivity|].
  cbn [parse_config map].
  rewrite (H p (or_introl eq_refl)), IH by (intros; apply H; now right).
  reflexivity.
Qed.

(** X16.  The initial load is fatal without a watch: when the file has
    no record for any sensor of the list, [main] exits with status 1 and
    "no watches defined"; and whenever the initial load returns, at
    least one entry of the list is watched. *)
Theorem main_load_needs_a_watch :
  forall (sensor_type_s : sensor_type -> string) (cf : config_t)
         (limits : list limits_t),
    ((forall p, In p limits -> cf (node_name sensor_type_s p) = None) ->
     main_load sensor_type_s cf limits = Exit 1 "no watches defined") /\
    (forall n limits',
        main_load sensor_type_s cf limits = Ret (n, limits') ->
        1 <= n /\ exists p', In p' limits' /\ watch p' = true).
Proof.
  intros tys cf limits. split.
  - intros H. unfold main_load.
    rewrite parse_config_no_records by assumption. reflexivity.
  - intros n limits' H. unfold main_load in H.
    destruct (parse_config tys cf limits) as [[m r]| |] eqn:R;
      try discriminate.
    cbn [bind fst] in H.
    destruct (m =? -1) eqn:E1; [discriminate|].
    destruct (m =? 0) eqn:E2; [discriminate|].
    injection H as <- <-.
    pose proof (parse_config_count tys cf _ _ _ R) as P.
    pose proof (parse_config_count_watched tys cf _ _ _ R) as C.
    split; [lia|].
    destruct (filter watch r) as [|q qs] eqn:F; [cbn in C; lia|].
    assert (Q : In q (filter watch r)) by (rewrite F; now left).
    apply filter_In in Q. exists q. exact Q.
Qed.

Lemma main_load_needs_a_watch_witness :
  main_load type_names cfg_none [cpu_temp0; amps0] =
    Exit 1 "no watches defined" /\
  (1 <= 1 /\ exists p', In p' [set_config LLONG_MIN 333160000
                                          (Some "echo %x %2") cpu_temp0] /\
                        watch p' = true).
Proof.
  split.
  - apply (proj1 (main_load_needs_a_watch type_names cfg_none
                    [cpu_temp0; amps0])).
    reflexivity.
  - apply (proj2 (main_load_needs_a_watch type_names cfg_watch [cpu_temp0])).
    vm_compute. reflexivity.
Defined.

(** X17.  A reload is not: when the new file has no record for any
    sensor, the reload logs "configuration reloaded, 0 watches" and the
    daemon goes on with every flag cleared; from then on a sampling pass
    takes no reading and returns the list as it is. *)
Theorem reload_without_records_watches_nothing :
  forall (sensor_type_s : sensor_type -> string) (cf : config_t)
         (limits : list limits_t),
    (forall p, In p limits -> cf (node_name sensor_type_s p) = None) ->
    main_reload sensor_type_s cf limits =
      Ret ([Syslog LOG_INFO "configuration reloaded, 0 watches"],
           map (set_watch false) limits) /\
    (forall sysctl now,
        check_sensors sysctl now (map (set_watch false) limits) =
        Ret (map (set_watch false) limits)).
Proof.
  intros tys cf limits H. split.
  - unfold main_reload.
    rewrite parse_config_no_records by assumption. reflexivity.
  - intros sysctl now. clear H.
    induction limits as [|p limits IH]; [reflexivity|].
    cbn [map check_sensors watch set_watch]. rewrite IH. reflexivity.
Qed.

Lemma reload_without_records_watches_nothing_witness :
  main_reload type_names cfg_none [temp_crit; fan_ok] =
    Ret ([Syslog LOG_INFO "configuration reloaded, 0 watches"],
         map (set_watch false) [temp_crit; fan_ok]) /\
  (forall sysctl now,
      check_sensors sysctl now (map (set_watch false) [temp_crit; fan_ok]) =
      Ret (map (set_watch false) [temp_crit; fan_ok])).
Proof.
  apply reload_without_records_watches_nothing.
  reflexivity.
Defined.

(** X18.  A threshold can never be set for a sensor of a type outside
    the switch of [get_val], such as a current sensor, although
    [print_sensor] formats its values: whatever the bound string is,
    [get_val] does not return. *)
Theorem get_val_never_returns_for_unsupported_types :
  forall (ty : sensor_type) (buf : string) (upper : bool) (v : Z),
    ty = SENSOR_AMPS \/ (exists k, ty = SENSOR_OTHER k) ->
    get_val (Some buf) upper ty <> Ret v.
Proof.
  intros ty buf upper v H. unfold get_val.
  destruct (strtod buf) as [val p| |]; try discriminate.
  destruct H as [->|[k ->]]; discriminate.
Qed.

Lemma get_val_never_returns_for_unsupported_types_witness :
  get_val (Some "1.5") true SENSOR_AMPS <> Ret 1500000.
Proof.
  apply get_val_never_returns_for_unsupported_types.
  left. reflexivity.
Defined.

(** X19.  [get_val] returns a temperature bound only for a number
    directly followed by C or F, and a voltage bound only for a number
    directly followed by V. *)
Theorem get_val_requires_the_unit :
  forall (buf : string) (upper : bool) (v : Z),
    (get_val (Some buf) upper SENSOR_TEMP = Ret v ->
     exists val rest,
       strtod buf = Conv val (String "C" rest) \/
       strtod buf = Conv val (String "F" rest)) /\
    (get_val (Some buf) upper SENSOR_VOLTS_DC = Ret v ->
     exists val rest, strtod buf = Conv val (String "V" rest)).
Proof.
  intros buf upper v. unfold get_val.
  destruct (strtod buf) as [val p| |]; split; try discriminate.
  - destruct p as [|c rest]; [discriminate|].
    destruct c as [[] [] [] [] [] [] [] []]; try discriminate;
      intros _; exists val, rest; auto.
  - destruct p as [|c rest]; [discriminate|].
    destruct c as [[] [] [] [] [] [] [] []]; try discriminate;
      intros _; exists val, rest; auto.
Qed.

Lemma get_val_requires_the_unit_witness :
  exists val rest, strtod "12.5V" = Conv val (String "V" rest).
Proof.
  apply (proj2 (get_val_requires_the_unit "12.5V" true 12500000)).
  vm_compute. reflexivity.
Defined.

Lemma zrange_In (lo : Z) (len : nat) (n : Z) :
  lo <= n < lo + Z.of_nat len -> In n (zrange lo len).
Proof.
  intros H. unfold zrange.
  replace n with (lo + Z.of_nat (Z.to_nat (n - lo))) by lia.
  apply (in_map (fun k => lo + Z.of_nat k)), in_seq. lia.
Qed.

Lemma forallb_zrange (f : Z -> bool) (lo : Z) (len : nat) :
  forallb f (zrange lo len) = true ->
  forall n, lo <= n < lo + Z.of_nat len -> f n = true.
Proof.
  intros H n Hn. rewrite forallb_forall in H. apply H, zrange_In, Hn.
Qed.

(** X20.  Every whole-degree Celsius threshold from -273 to 999 is
    stored exactly 273.16 K above it in micro-kelvin, as lower and as
    upper bound alike, with no loss in the [double] arithmetic; from 0
    degrees on [print_sensor] shows the stored bound one hundredth of a
    degree above what was configured. *)
Theorem celsius_thresholds_are_stored_a_hundredth_high :
  forall (n : Z) (upper : bool),
    -273 <= n < 1000 ->
    get_val (Some (dec n ++ "C")%string) upper SENSOR_TEMP =
      Ret (n * 1000000 + 273160000) /\
    (0 <= n ->
     print_sensor SENSOR_TEMP (n * 1000000 + 273160000) =
       (dec n ++ ".01 degC")%string).
Proof.
  intros n upper Hn. split.
  - assert (A : forallb celsius_parse_ok (zrange (-273) 1273) = true)
      by (vm_compute; reflexivity).
    pose proof (forallb_zrange _ _ _ A n ltac:(lia)) as H. clear A.
    unfold celsius_parse_ok in H.
    destruct (get_val (Some (dec n ++ "C")%string) false SENSOR_TEMP)
      as [lo| |] eqn:E1; try discriminate H.
    destruct (get_val (Some (dec n ++ "C")%string) true SENSOR_TEMP)
      as [up| |] eqn:E2; try discriminate H.
    apply andb_prop in H. destruct H as [H1 H2].
    apply Z.eqb_eq in H1, H2. subst lo up.
    destruct upper; assumption.
  - intros H0.
    assert (A : forallb celsius_print_ok (zrange 0 1000) = true)
      by (vm_compute; reflexivity).
    pose proof (forallb_zrange _ _ _ A n ltac:(lia)) as H. clear A.
    unfold celsius_print_ok in H. now apply String.eqb_eq in H.
Qed.

Lemma celsius_thresholds_are_stored_a_hundredth_high_witness :
  get_val (Some (dec 80 ++ "C")%string) true SENSOR_TEMP =
    Ret (80 * 1000000 + 273160000) /\
  (0 <= 80 ->
   print_sensor SENSOR_TEMP (80 * 1000000 + 273160000) =
     (dec 80 ++ ".01 degC")%string).
Proof.
  apply celsius_thresholds_are_stored_a_hundredth_high.
  split; [discriminate | reflexivity].
Defined.

(** X21.  The conversion to micro-units truncates the [double]
    product: a voltage threshold written with two decimals, from 0.00 V
    to 19.99 V, is stored as the exact number of micro-volts or one
    below it, and 2.01 V is stored as 2009999. *)
Theorem volt_thresholds_can_be_one_microvolt_low :
  (forall c : Z,
      0 <= c < 2000 ->
      exists v,
        get_val (Some (two_decimals c ++ "V")%string) true SENSOR_VOLTS_DC =
          Ret v /\
        c * 10000 - 1 <= v <= c * 10000) /\
  get_val (Some "2.01V") true SENSOR_VOLTS_DC = Ret 2009999.
Proof.
  split.
  - intros c Hc.
    assert (A : forallb volts_parse_ok (zrange 0 2000) = true)
      by (vm_compute; reflexivity).
    pose proof (forallb_zrange _ _ _ A c ltac:(lia)) as H. clear A.
    unfold volts_parse_ok in H.
    destruct (get_val (Some (two_decimals c ++ "V")%string) true
                      SENSOR_VOLTS_DC) as [v| |]; try discriminate H.
    exists v. split; [reflexivity|].
    apply andb_prop in H. destruct H as [H1 H2].
    apply Z.leb_le in H1, H2. split; assumption.
  - vm_compute. reflexivity.
Qed.

Lemma volt_thresholds_can_be_one_microvolt_low_witness :
  exists v,
    get_val (Some (two_decimals 330 ++ "V")%string) true SENSOR_VOLTS_DC =
      Ret v /\
    330 * 10000 - 1 <= v <= 330 * 10000.
Proof.
  apply (proj1 volt_thresholds_can_be_one_microvolt_low 330).
  split; [discriminate | reflexivity].
Defined.

(* ================================================================== *)
(** * Properties of the enumeration in main                            *)
(* ================================================================== *)

Lemma zrange_In_iff (lo : Z) (len : nat) (n : Z) :
  In n (zrange lo len) <-> lo <= n < lo + Z.of_nat len.
Proof.
  split; [|apply zrange_In].
  unfold zrange. intros H. apply in_map_iff in H.
  destruct H as (k & <- & Hk). apply in_seq in Hk. lia.
Qed.

Section EnumerationFacts.

Variable MAXSENSORDEVICES : Z.
Variable sensor_types : list sensor_type.
Variable devctl : devctl_t.
Variable probe : probe_t.

Lemma enumerate_numt_In (d : Z) (sd : sensordev) (ty : sensor_type)
  (l : limits_t) :
  In l (enumerate_numt probe d sd ty) <->
  exists n, 0 <= n < maxnumt sd ty /\ probe d ty n = Some false /\
            l = calloc_limit (truncate 16 (xname sd)) d ty n.
Proof.
  unfold enumerate_numt. rewrite in_flat_map. split.
  - intros (n & Hn & Hl). apply zrange_In_iff in Hn.
    exists n. destruct (probe d ty n) as [[|]|]; try destruct Hl.
    + repeat split; try lia. now subst l.
    + destruct H.
  - intros (n & Hn & Hp & ->). exists n. split.
    + apply zrange_In_iff. lia.
    + rewrite Hp. now left.
Qed.

End EnumerationFacts.

Lemma enumerate_In :
  forall (MAXSENSORDEVICES : Z) (sensor_types : list sensor_type)
         (devctl : devctl_t) (probe : probe_t) (l : limits_t),
    In l (enumerate MAXSENSORDEVICES sensor_types devctl probe) <->
    exists d sd ty n,
      0 <= d < MAXSENSORDEVICES /\ devctl d = Some sd /\
      In ty sensor_types /\ 0 <= n < maxnumt sd ty /\
      probe d ty n = Some false /\
      l = calloc_limit (truncate 16 (xname sd)) d ty n.
Proof.
  intros M tys devctl probe l. unfold enumerate. rewrite in_flat_map. split.
  - intros (d & Hd & Hl). apply zrange_In_iff in Hd.
    unfold enumerate_dev in Hl.
    destruct (devctl d) as [sd|] eqn:E; [|destruct Hl].
    apply in_flat_map in Hl. destruct Hl as (ty & Hty & Hl).
    apply enumerate_numt_In in Hl. destruct Hl as (n & Hn & Hp & ->).
    exists d, sd, ty, n. repeat split; try assumption; lia.
  - intros (d & sd & ty & n & Hd & E & Hty & Hn & Hp & ->).
    exists d. split; [apply zrange_In_iff; lia|].
    unfold enumerate_dev. rewrite E. apply in_flat_map.
    exists ty. split; [assumption|].
    apply enumerate_numt_In. exists n. auto.
Qed.

(** X22.  The enumeration finds exactly the valid sensors: an entry is
    in the list if and only if it is the zeroed entry of a sensor number
    below [maxnumt] of a type of a device below [MAXSENSORDEVICES] that
    answers, whose reading can be taken and is not flagged invalid.
    Devices and sensors that do not answer, and invalid sensors, are
    skipped. *)
Theorem enumerate_finds_exactly_the_valid_sensors :
  forall (MAXSENSORDEVICES : Z) (sensor_types : list sensor_type)
         (devctl : devctl_t) (probe : probe_t) (l : limits_t),
    In l (enumerate MAXSENSORDEVICES sensor_types devctl probe) <->
    exists d sd ty n,
      0 <= d < MAXSENSORDEVICES /\ devctl d = Some sd /\
      In ty sensor_types /\ 0 <= n < maxnumt sd ty /\
      probe d ty n = Some false /\
      l = calloc_limit (truncate 16 (xname sd)) d ty n.
Proof. exact enumerate_In. Qed.

(** X23.  [main] gives up with "no sensors found" exactly when the
    enumeration is empty; otherwise every entry it starts with is
    unwatched, has no command, zero bounds and the zero state, so that
    its counter is in range and no report mentions it before it has
    been watched and has changed. *)
Theorem main_enumerate_starts_from_zeroed_entries :
  forall (MAXSENSORDEVICES : Z) (sensor_types : list sensor_type)
         (devctl : devctl_t) (probe : probe_t),
    (main_enumerate MAXSENSORDEVICES sensor_types devctl probe =
       Exit 1 "no sensors found" <->
     enumerate MAXSENSORDEVICES sensor_types devctl probe = []) /\
    (forall limits,
        main_enumerate MAXSENSORDEVICES sensor_types devctl probe =
          Ret limits ->
        limits <> [] /\
        Forall (fun l =>
                  l = calloc_limit (dxname l) (dev l) (type l) (numt l) /\
                  count_inv l /\
                  forall tys B last, 0 <= last ->
                    report_limit tys B last l = ([], false))
               limits).
Proof.
  intros M tys devctl probe. unfold main_enumerate.
  destruct (enumerate M tys devctl probe) as [|p ps] eqn:E.
  - cbn. split; [split; reflexivity | discriminate].
  - cbn [List.length]. rewrite Nat2Z.inj_succ.
    destruct (Z.succ (Z.of_nat (List.length ps)) =? 0) eqn:Z0;
      [apply Z.eqb_eq in Z0; lia|].
    split; [split; discriminate|].
    intros limits H. injection H as <-. split; [discriminate|].
    apply Forall_forall. intros l Hl.
    assert (Hin : In l (enumerate M tys devctl probe))
      by (rewrite E; exact Hl).
    apply enumerate_In in Hin.
    destruct Hin as (d & sd & ty & n & _ & _ & _ & _ & _ & ->).
    split; [reflexivity|]. split; [apply calloc_limit_count_inv|].
    intros tys' B last Hlast. apply report_limit_silent. exact Hlast.
Qed.

Example enumerate_example :
  main_enumerate 32 example_types example_devctl example_probe =
  Ret [calloc_limit "cpu0" 0 SENSOR_TEMP 0].
Proof. vm_compute. reflexivity. Qed.

Lemma main_enumerate_starts_from_zeroed_entries_witness :
  [calloc_limit "cpu0" 0 SENSOR_TEMP 0] <> [] /\
  Forall (fun l =>
            l = calloc_limit (dxname l) (dev l) (type l) (numt l) /\
            count_inv l /\
            forall tys B last, 0 <= last ->
              report_limit tys B last l = ([], false))
         [calloc_limit "cpu0" 0 SENSOR_TEMP 0].
Proof.
  apply (proj2 (main_enumerate_starts_from_zeroed_entries
                  32 example_types example_devctl example_probe)).
  vm_compute. reflexivity.
Defined.

(* ================================================================== *)
(** * Properties of the control loop of main                           *)
(* ================================================================== *)

Section LoopFacts.

Variable sensor_type_s : sensor_type -> string.
Variable BUFSIZ : Z.

(** What a round that returns did, read off [main_round]. *)
Lemma main_round_inv (cf : config_t) (sysctl : sysctl_t) (clk : clock)
  (reload : bool) (limits limits' : list limits_t) (s s' : schedule)
  (evs : list event) (slp : Z) :
  main_round sensor_type_s BUFSIZ cf sysctl clk reload limits s =
    Ret (evs, limits', s', slp) ->
  exists s1,
    (s1 = s \/
     (next_check s <= at_check_test clk /\
      s1 = mk_schedule (after_check clk + CHECK_PERIOD) (next_report s)
                       (last_report s))) /\
    s' = snd (report_step sensor_type_s BUFSIZ clk limits' s1) /\
    slp = sleeptime clk s'.
Proof.
  unfold main_round. intros H.
  destruct (if reload then main_reload sensor_type_s cf limits
            else Ret ([], limits)) as [r| |]; try discriminate.
  cbn [bind] in H.
  destruct (next_check s <=? at_check_test clk) eqn:E.
  - destruct (check_sensors sysctl (at_sampling clk) (snd r)) as [l2| |];
      try discriminate.
    cbn [bind fst snd] in H. injection H as <- <- <- <-.
    eexists. split; [right; split; [lia | reflexivity]|]. split; reflexivity.
  - cbn [bind fst snd] in H. injection H as <- <- <- <-.
    exists s. split; [left; reflexivity|]. split; reflexivity.
Qed.

End LoopFacts.

(** X24.  The loop keeps its schedule: if the clock does not go back
    during a round and, when the round starts, no check is scheduled
    more than 20 s and no report more than 60 s ahead, then the same
    holds when the round goes to sleep; the round sleeps exactly until
    the earlier of the next check and the next report, and never longer
    than one check period. *)
Theorem main_round_keeps_the_schedule :
  forall (sensor_type_s : sensor_type -> string) (BUFSIZ : Z)
         (cf : config_t) (sysctl : sysctl_t) (clk : clock) (reload : bool)
         (limits limits' : list limits_t) (s s' : schedule)
         (evs : list event) (slp : Z),
    clock_monotone clk ->
    schedule_inv (at_check_test clk) s ->
    main_round sensor_type_s BUFSIZ cf sysctl clk reload limits s =
      Ret (evs, limits', s', slp) ->
    schedule_inv (at_sleep clk) s' /\
    at_sleep clk + slp = Z.min (next_check s') (next_report s') /\
    slp <= CHECK_PERIOD.
Proof.
  intros tys B cf sysctl clk reload limits limits' s s' evs slp
         (M1 & M2 & M3 & M4 & M5) (I1 & I2 & I3) H.
  apply main_round_inv in H. destruct H as (s1 & H1 & -> & ->).
  unfold schedule_inv, sleeptime, report_step, CHECK_PERIOD, REPORT_PERIOD in *.
  destruct H1 as [->|[Hd ->]];
    cbn [next_check next_report last_report];
    match goal with
    | |- context [?a <=? ?b] => destruct (a <=? b) eqn:E1
    end;
    cbn [snd next_check next_report last_report];
    match goal with
    | |- context [?a <? ?b] => destruct (a <? b) eqn:E2
    end; lia.
Qed.

Lemma main_round_keeps_the_schedule_witness :
  schedule_inv (at_sleep late_clock) (mk_schedule 121 161 100) /\
  at_sleep late_clock + 20 = Z.min 121 161 /\
  20 <= CHECK_PERIOD.
Proof.
  apply (main_round_keeps_the_schedule type_names 1024 cfg_watch sysctl_hot
           late_clock false [temp_40_60]
           [check_limit (mk_sensor 353150000 SENSOR_S_UNSPEC) 101 temp_40_60]
           due_at_100 (mk_schedule 121 161 100) [] 20).
  - unfold clock_monotone. simpl. repeat split; discriminate.
  - unfold schedule_inv. simpl. repeat split; discriminate.
  - vm_compute. reflexivity.
Defined.

(** The lines and commands of a round: those of the reload, then those
    of the report step, which runs on the list the round returns with
    the report times the round started with. *)
Lemma main_round_events (sensor_type_s : sensor_type -> string) (BUFSIZ : Z)
  (cf : config_t) (sysctl : sysctl_t) (clk : clock)
  (reload : bool) (limits limits' : list limits_t) (s s' : schedule)
  (evs : list event) (slp : Z) :
  main_round sensor_type_s BUFSIZ cf sysctl clk reload limits s =
    Ret (evs, limits', s', slp) ->
  exists ev1 s1,
    next_report s1 = next_report s /\ last_report s1 = last_report s /\
    evs = (ev1 ++ fst (report_step sensor_type_s BUFSIZ clk limits' s1))%list /\
    s' = snd (report_step sensor_type_s BUFSIZ clk limits' s1).
Proof.
  unfold main_round. intros H.
  destruct (if reload then main_reload sensor_type_s cf limits
            else Ret ([], limits)) as [r| |]; try discriminate.
  cbn [bind] in H.
  destruct (next_check s <=? at_check_test clk) eqn:E.
  - destruct (check_sensors sysctl (at_sampling clk) (snd r)) as [l2| |];
      try discriminate.
    cbn [bind fst snd] in H. injection H as <- <- <- <-.
    eexists _, _. split; [|split; [|split; reflexivity]]; reflexivity.
  - cbn [bind fst snd] in H. injection H as <- <- <- <-.
    exists (fst r), s. repeat split.
Qed.

(** X25.  A change is not announced again once its report is over: when
    a round runs the report, the next report asks for changes after the
    time this one was due, so it, and every report after it, is silent
    for each entry whose change time is not after that due time. *)
Theorem change_on_time_is_not_announced_again :
  forall (sensor_type_s : sensor_type -> string) (BUFSIZ : Z)
         (cf : config_t) (sysctl : sysctl_t) (clk : clock) (reload : bool)
         (limits limits' : list limits_t) (s s' : schedule)
         (evs : list event) (slp : Z),
    main_round sensor_type_s BUFSIZ cf sysctl clk reload limits s =
      Ret (evs, limits', s', slp) ->
    next_report s <= at_report_test clk ->
    last_report s' = next_report s /\
    forall (l : limits_t) (later : time_t),
      status_changed l <= next_report s ->
      last_report s' <= later ->
      report_limit sensor_type_s BUFSIZ later l = ([], false).
Proof.
  intros tys B cf sysctl clk reload limits limits' s s' evs slp H Hdue.
  apply main_round_events in H.
  destruct H as (ev1 & s1 & N & L & _ & ->).
  unfold report_step. rewrite N.
  destruct (next_report s <=? at_report_test clk) eqn:E; [|lia].
  cbn [snd last_report]. split; [reflexivity|].
  intros l later Hl Hlater. apply report_limit_silent. lia.
Qed.

Lemma change_on_time_is_not_announced_again_witness :
  last_report (mk_schedule 121 161 100) = next_report due_at_100 /\
  forall (l : limits_t) (later : time_t),
    status_changed l <= next_report due_at_100 ->
    last_report (mk_schedule 121 161 100) <= later ->
    report_limit type_names 1024 later l = ([], false).
Proof.
  apply (change_on_time_is_not_announced_again type_names 1024 cfg_watch
           sysctl_hot late_clock false [temp_40_60]
           [check_limit (mk_sensor 353150000 SENSOR_S_UNSPEC) 101 temp_40_60]
           due_at_100 (mk_schedule 121 161 100) [] 20).
  - vm_compute. reflexivity.
  - simpl. discriminate.
Defined.

(** X26.  A change stamped after the due time of its report is
    announced twice: when a round runs the report later than it was due
    and an entry of the list has a change time after the due time, the
    round logs the entry's alert line, and the next report, run on the
    same entries, logs it again (no substitution overflowing). *)
Theorem late_change_is_announced_twice :
  forall (sensor_type_s : sensor_type -> string) (BUFSIZ : Z)
         (cf : config_t) (sysctl : sysctl_t) (clk : clock) (reload : bool)
         (limits limits' : list limits_t) (s s' : schedule)
         (evs : list event) (slp : Z) (l : limits_t),
    main_round sensor_type_s BUFSIZ cf sysctl clk reload limits s =
      Ret (evs, limits', s', slp) ->
    next_report s <= at_report_test clk ->
    last_report s <= next_report s ->
    (forall p cmd, In p limits' -> command p = Some cmd ->
                   expand sensor_type_s BUFSIZ p cmd "" <> Overflow) ->
    In l limits' ->
    next_report s < status_changed l ->
    In (alert_line sensor_type_s l) (alert_lines evs) /\
    In (alert_line sensor_type_s l)
       (alert_lines (report sensor_type_s BUFSIZ (last_report s') limits')).
Proof.
  intros tys B cf sysctl clk reload limits limits' s s' evs slp l
         H Hdue Hinv Hno Hin Hlate.
  apply main_round_events in H.
  destruct H as (ev1 & s1 & N & L & -> & ->).
  unfold report_step. rewrite N, L.
  destruct (next_report s <=? at_report_test clk) eqn:E; [|lia].
  cbn [fst snd last_report].
  rewrite alert_lines_app, !report_alert_lines
    by assumption.
  split.
  - apply in_or_app. right. apply in_map, filter_In.
    split; [assumption|]. unfold changed_since. apply Z.ltb_lt. lia.
  - apply in_map, filter_In.
    split; [assumption|]. unfold changed_since. apply Z.ltb_lt. lia.
Qed.

Lemma late_change_is_announced_twice_witness :
  In (alert_line type_names (confirm SENSOR_S_OK 3 101
        (set_last_val 320000000 temp_crit)))
     (alert_lines
        [Syslog LOG_ALERT
           "hw.sensors.cpu0.temp0: within limits, value: 46.85 degC"]) /\
  In (alert_line type_names (confirm SENSOR_S_OK 3 101
        (set_last_val 320000000 temp_crit)))
     (alert_lines (report type_names 1024
        (last_report (mk_schedule 121 161 100))
        [confirm SENSOR_S_OK 3 101 (set_last_val 320000000 temp_crit)])).
Proof.
  apply (late_change_is_announced_twice type_names 1024 cfg_watch
           (fun _ _ _ => Some (mk_sensor 320000000 SENSOR_S_UNSPEC))
           late_clock false [temp_crit]
           [confirm SENSOR_S_OK 3 101 (set_last_val 320000000 temp_crit)]
           due_at_100 (mk_schedule 121 161 100)
           [Syslog LOG_ALERT
              "hw.sensors.cpu0.temp0: within limits, value: 46.85 degC"] 20).
  - vm_compute. reflexivity.
  - simpl. discriminate.
  - simpl. discriminate.
  - intros p cmd [<-|[]] Hc. discriminate Hc.
  - left. reflexivity.
  - reflexivity.
Defined.

(* ================================================================== *)
(** * Properties of floor (i387)                                       *)
(* ================================================================== *)









Example floor_minus_two_and_a_half :
  I387.st (I387.floor (I387.mk_machine 4096 0 0x0f7f []
                         (fun _ => 0) (fun _ => d_decimal (-25) 1))) =
  [d_of_Z (-3)].
Proof. vm_compute. reflexivity. Qed.



